(** * Crop-Recommendation: request validation and the prediction / report
      pipeline of [app.py]

    A shallow embedding of the Flask application: Python [str] values are
    lists of Unicode code points, Python floats are IEEE-754 binary64 values
    ([spec_float] at precision 53), exceptions are an explicit result type,
    and the side effects of a handler (printing, logging, reading the clock,
    calling the classifier) are recorded as events in the process state. *)

From Stdlib Require Import ZArith NArith QArith Bool List Lia.
From Stdlib Require Import Ascii String DecimalString.
From Stdlib Require Import SpecFloat.
Import ListNotations.

Set Implicit Arguments.
Local Open Scope Z_scope.

(* ================================================================== *)
(** ** Python strings *)

(** A Python [str] is a sequence of code points. *)
Definition str := list N.

(** An ASCII literal of the source, as a [str]. *)
Definition lit (s : string) : str := map N_of_ascii (list_ascii_of_string s).

Definition str_eqb (a b : str) : bool :=
  if list_eq_dec N.eq_dec a b then true else false.

(** [str.isspace] on one code point: the characters [str.strip()] removes. *)
Definition isspace (c : N) : bool :=
  ((9 <=? c) && (c <=? 13) || (28 <=? c) && (c <=? 32) || (c =? 133)
   || (c =? 160) || (c =? 5760) || (8192 <=? c) && (c <=? 8202)
   || (c =? 8232) || (c =? 8233) || (c =? 8239) || (c =? 8287)
   || (c =? 12288))%N.

Fixpoint lstrip (s : str) : str :=
  match s with
  | [] => []
  | c :: t => if isspace c then lstrip t else s
  end.

Definition rstrip (s : str) : str := rev (lstrip (rev s)).

(** [s.strip()] *)
Definition strip (s : str) : str := rstrip (lstrip s).

(** [s[:n]] *)
Definition slice_to (n : nat) (s : str) : str := firstn n s.

(** Decimal digits of a number, as text ([str(n)] for an [int]). *)
Definition str_of_N (n : N) : str := lit (NilZero.string_of_uint (N.to_uint n)).
Definition str_of_Z (z : Z) : str := lit (NilZero.string_of_int (Z.to_int z)).

(** The last [d] decimal digits of [n], zero padded (["%0dd"] when [n] has at
    most [d] digits). *)
Fixpoint digits_fixed (d : nat) (n : N) : str :=
  match d with
  | O => []
  | S d' => digits_fixed d' (n / 10)%N ++ [(48 + n mod 10)%N]
  end.

(* ================================================================== *)
(** ** Python floats *)

Definition float := spec_float.
Definition prec : Z := 53.
Definition emax : Z := 1024.

(** The binary64 value nearest to [m / 10^k] (ties to even), with sign
    [neg]: what [float()] returns for a decimal numeral with digit string
    [m] and [k] digits after the point. *)
Definition float_of_decimal (neg : bool) (m : N) (k : nat) : float :=
  match m with
  | N0 => S754_zero neg
  | Npos p =>
      let '(q, e, l) := SFdiv_core_binary prec emax (Zpos p) 0 (10 ^ Z.of_nat k) 0 in
      binary_round_aux prec emax neg q e l
  end.

(** [float(n)] for an [int] [n]. *)
Definition float_of_int (n : Z) : float := binary_normalize prec emax n 0 false.

(** The rational a finite float denotes. *)
Definition F2Q (s : bool) (m : positive) (e : Z) : Q :=
  (inject_Z (cond_Zopp s (Zpos m)) * (2 # 1) ^ e)%Q.

Definition float_value (x : float) : option Q :=
  match x with
  | S754_zero _ => Some 0%Q
  | S754_finite s m e => Some (F2Q s m e)
  | _ => None
  end.

(** Comparison of a float with an [int]: Python compares the exact values;
    every comparison with NaN is false. *)
Definition float_cmp_int (x : float) (n : Z) : option comparison :=
  match x with
  | S754_nan => None
  | S754_infinity s => Some (if s then Lt else Gt)
  | S754_zero _ => Some (0 ?= n)
  | S754_finite s m e => Some (F2Q s m e ?= inject_Z n)%Q
  end.

(** [x < n] *)
Definition float_lt_int (x : float) (n : Z) : bool :=
  match float_cmp_int x n with Some Lt => true | _ => false end.

(** [x > n] *)
Definition float_gt_int (x : float) (n : Z) : bool :=
  match float_cmp_int x n with Some Gt => true | _ => false end.

(** The closed interval [lo, hi] of the reals, as a predicate on floats:
    infinities and NaN are outside of every interval. *)
Definition within (lo hi : Z) (x : float) : Prop :=
  exists q, float_value x = Some q /\ (inject_Z lo <= q)%Q /\ (q <= inject_Z hi)%Q.

(** The integer nearest to [num / den], ties to even. *)
Definition round_half_even (num den : Z) : Z :=
  let q := num / den in
  let r := num mod den in
  match (2 * r ?= den) with
  | Lt => q
  | Gt => q + 1
  | Eq => if Z.even q then q else q + 1
  end.

(** [f"{x:.<d>f}"]: fixed-point notation with [d] digits after the point,
    correctly rounded from the exact binary value. *)
Definition format_fixed (d : nat) (x : float) : str :=
  let body (m : positive) (e : Z) :=
    let scaled :=
      if 0 <=? e then Zpos m * 2 ^ e * 10 ^ Z.of_nat d
      else round_half_even (Zpos m * 10 ^ Z.of_nat d) (2 ^ (- e)) in
    let n := Z.to_N scaled in
    str_of_N (n / 10 ^ N.of_nat d)%N
      ++ match d with
         | O => []
         | _ => lit "." ++ digits_fixed d n
         end in
  let sign (s : bool) := if s then lit "-" else [] in
  match x with
  | S754_nan => lit "nan"
  | S754_infinity s => sign s ++ lit "inf"
  | S754_zero s => sign s ++ str_of_N 0 ++ match d with O => [] | _ => lit "." ++ digits_fixed d 0 end
  | S754_finite s m e => sign s ++ body m e
  end.

(* ================================================================== *)
(** ** [re.sub(r'[^0-9.-]', '', ...)] and [float(...)] *)

Definition is_digit (c : N) : bool := ((48 <=? c) && (c <=? 57))%N.

(** The character class [0-9.-] . *)
Definition numeric_char (c : N) : bool :=
  (is_digit c || (c =? 46) || (c =? 45))%N.

(** [re.sub(r'[^0-9.-]', '', s)]: every character outside the class is
    deleted. *)
Definition re_sub_non_numeric (s : str) : str := filter numeric_char s.

(** The longest prefix of digits and what follows it. *)
Fixpoint span_digits (s : str) : str * str :=
  match s with
  | [] => ([], [])
  | c :: t =>
      if is_digit c then let '(ds, rest) := span_digits t in (c :: ds, rest)
      else ([], s)
  end.

(** The number a digit string denotes. *)
Definition digits_value (ds : str) : N :=
  fold_left (fun acc c => (10 * acc + (c - 48))%N) ds 0%N.

(** [float(s)] for a text [s] over the alphabet [0-9.-], the only texts the
    program passes to it: an optional minus sign, then digits with at most one
    point and at least one digit. [None] stands for the [ValueError] that
    [float] raises. *)
Definition py_float (s : str) : option float :=
  let '(neg, body) :=
    match s with
    | c :: t => if (c =? 45)%N then (true, t) else (false, s)
    | [] => (false, s)
    end in
  let '(ip, rest) := span_digits body in
  let '(fp, rest') :=
    match rest with
    | c :: t => if (c =? 46)%N then span_digits t else ([], rest)
    | [] => ([], rest)
    end in
  match rest', ip ++ fp with
  | [], _ :: _ => Some (float_of_decimal neg (digits_value (ip ++ fp)) (List.length fp))
  | _, _ => None
  end.

(* ================================================================== *)
(** ** Exceptions *)

(** The exceptions the handlers distinguish: [ValueError], and every other
    [Exception]. *)
Inductive exn : Type :=
| ValueError (msg : str)
| OtherError (msg : str).

Inductive result (A : Type) : Type :=
| Ok (a : A)
| Raise (e : exn).
Arguments Ok {A} a.
Arguments Raise {A} e.

Definition rbind {A B} (r : result A) (k : A -> result B) : result B :=
  match r with
  | Ok a => k a
  | Raise e => Raise e
  end.

Definition rmap {A B} (f : A -> B) (r : result A) : result B :=
  rbind r (fun a => Ok (f a)).

(** The elements of a list display are evaluated from left to right; the
    first one that raises ends the evaluation. *)
Fixpoint collect {A} (rs : list (result A)) : result (list A) :=
  match rs with
  | [] => Ok []
  | r :: rest => rbind r (fun a => rbind (collect rest) (fun l => Ok (a :: l)))
  end.

(* ================================================================== *)
(** ** Input validation helpers *)

(** [repr] of a text over the alphabet [0-9.-]: the text in single quotes. *)
Definition repr (s : str) : str := lit "'" ++ s ++ lit "'".

(** [sanitize_numeric_input(value, min_val, max_val, field_name)].
    The bounds the program passes are [int]s. Both range errors are raised
    inside the [try] block, so they are wrapped like the parse error. *)
Definition sanitize_numeric_input (value : str) (min_val max_val : option Z)
    (field_name : str) : result float :=
  let attempt : result float :=
    let cleaned := re_sub_non_numeric value in
    match py_float cleaned with
    | None =>
        Raise (ValueError (lit "could not convert string to float: " ++ repr cleaned))
    | Some num_value =>
        match min_val with
        | Some lo =>
            if float_lt_int num_value lo
            then Raise (ValueError (field_name ++ lit " must be at least " ++ str_of_Z lo))
            else match max_val with
                 | Some hi =>
                     if float_gt_int num_value hi
                     then Raise (ValueError (field_name ++ lit " must be at most " ++ str_of_Z hi))
                     else Ok num_value
                 | None => Ok num_value
                 end
        | None =>
            match max_val with
            | Some hi =>
                if float_gt_int num_value hi
                then Raise (ValueError (field_name ++ lit " must be at most " ++ str_of_Z hi))
                else Ok num_value
            | None => Ok num_value
            end
        end
    end in
  match attempt with
  | Raise (ValueError e) => Raise (ValueError (lit "Invalid " ++ field_name ++ lit ": " ++ e))
  | r => r
  end.

(** A dynamically typed argument: a [str] or anything else. *)
Inductive pyvalue : Type :=
| PyStr (s : str)
| PyOther.

(** [sanitize_input(text, max_length)] *)
Definition sanitize_input (text : pyvalue) (max_length : nat) : str :=
  match text with
  | PyStr s => slice_to max_length (strip s)
  | PyOther => []
  end.

(* ================================================================== *)
(** ** Requests and responses *)

(** [request.form]: the submitted fields in order; a key may occur more than
    once, and [form[key]] is its first value. *)
Definition Form := list (str * str).

Fixpoint form_lookup (form : Form) (key : str) : option str :=
  match form with
  | [] => None
  | (k, v) :: rest => if str_eqb k key then Some v else form_lookup rest key
  end.

(** [key in request.form] *)
Definition form_contains (form : Form) (key : str) : bool :=
  match form_lookup form key with Some _ => true | None => false end.

(** [request.form[key]]; a missing key raises werkzeug's
    [BadRequestKeyError], a [KeyError] and not a [ValueError]. *)
Definition form_get (form : Form) (key : str) : result str :=
  match form_lookup form key with
  | Some v => Ok v
  | None =>
      Raise (OtherError
               (lit "400 Bad Request: The browser (or proxy) sent a request that this server could not understand."))
  end.

Inductive json : Type :=
| JStr (s : str)
| JBool (b : bool).

(** A number given to the PDF canvas: an [int] or a [float]. *)
Inductive num : Type :=
| Int (z : Z)
| Float (x : float).

(** [a - b] *)
Definition num_sub (a b : num) : num :=
  match a, b with
  | Int x, Int y => Int (x - y)
  | Int x, Float y => Float (SFsub prec emax (float_of_int x) y)
  | Float x, Int y => Float (SFsub prec emax x (float_of_int y))
  | Float x, Float y => Float (SFsub prec emax x y)
  end.

(** The drawing calls made on a [canvas.Canvas], in the order they are made. *)
Inductive canvas_op : Type :=
| setFont (name : str) (size : Z)
| drawString (x y : num) (text : str)
| line (x1 y1 x2 y2 : num)
| setFillColorRGB (r g b : num)
| showPage
| save.

Inductive ctx_value : Type :=
| CStr (s : str)
| CDict (d : list (str * str)).

(** What a view function returns: a JSON object, a rendered template, or
    a file sent as an attachment, whose content is the document the canvas
    calls describe. *)
Inductive body : Type :=
| Json (fields : list (str * json))
| Template (name : str) (context : list (str * ctx_value))
| Attachment (content : list canvas_op) (download_name mimetype : str).

Record Response : Type := { status : Z; payload : body }.

(** [jsonify({'error': msg}), code] *)
Definition json_error (msg : str) (code : Z) : Response :=
  {| status := code; payload := Json [(lit "error", JStr msg)] |}.

(** A carriage return or a line feed in a text. *)
Definition has_newline (s : str) : bool :=
  existsb (fun c => (c =? 10) || (c =? 13))%N s.

Definition header_newline_error : str :=
  lit "Header values must not contain newline characters.".

(** [send_file(buffer, as_attachment=True, download_name=..., mimetype=...)]:
    the file name goes into the [Content-Disposition] header, and werkzeug
    refuses a header value that holds a carriage return or a line feed with
    a [ValueError]. *)
Definition send_file (content : list canvas_op) (download_name mimetype : str)
    : result Response :=
  if has_newline download_name
  then Raise (ValueError header_newline_error)
  else Ok {| status := 200;
             payload := Attachment content download_name mimetype |}.

(** [render_template(name, **context)]. The templates are not part of the
    program text: the view is kept as its name and context, and rendering is
    taken to succeed. *)
Definition render_template (name : str) (context : list (str * ctx_value)) : Response :=
  {| status := 200; payload := Template name context |}.

(* ================================================================== *)
(** ** Process state and effects *)

Record datetime : Type :=
  { year : N; month : N; day : N; hour : N; minute : N; second : N;
    microsecond : N }.

(** One [strftime] directive. *)
Definition directive (c : N) (t : datetime) : str :=
  if (c =? 89)%N then digits_fixed 4 (year t)          (* %Y *)
  else if (c =? 109)%N then digits_fixed 2 (month t)   (* %m *)
  else if (c =? 100)%N then digits_fixed 2 (day t)     (* %d *)
  else if (c =? 72)%N then digits_fixed 2 (hour t)     (* %H *)
  else if (c =? 77)%N then digits_fixed 2 (minute t)   (* %M *)
  else if (c =? 83)%N then digits_fixed 2 (second t)   (* %S *)
  else [37%N; c].

(** [t.strftime(fmt)] for the directives the program uses. *)
Fixpoint strftime (fmt : str) (t : datetime) : str :=
  match fmt with
  | [] => []
  | c :: rest =>
      if (c =? 37)%N then
        match rest with
        | d :: rest' => directive d t ++ strftime rest' t
        | [] => [c]
        end
      else c :: strftime rest t
  end.

(** [t.isoformat()] *)
Definition isoformat (t : datetime) : str :=
  digits_fixed 4 (year t) ++ lit "-" ++ digits_fixed 2 (month t) ++ lit "-"
    ++ digits_fixed 2 (day t) ++ lit "T" ++ digits_fixed 2 (hour t) ++ lit ":"
    ++ digits_fixed 2 (minute t) ++ lit ":" ++ digits_fixed 2 (second t)
    ++ (if (microsecond t =? 0)%N then []
        else lit "." ++ digits_fixed 6 (microsecond t)).

(** The two unpickled artifacts, as the black boxes the program calls. *)
Record Model : Type := { model_predict : list float -> result Z }.
Record LabelEncoder : Type := { inverse_transform : Z -> result str }.

Inductive event : Type :=
| Print (text : str)
| LogError (text : str)
| ClockRead (t : datetime)
| ModelPredict (x : list float)
| LabelDecode (y : Z).

(** The module-level globals [model] and [label_encoder], the system clock
    (its successive readings), and the effects performed so far, newest
    first. *)
Record World : Type :=
  { model : option Model;
    label_encoder : option LabelEncoder;
    clock : nat -> datetime;
    ticks : nat;
    trace : list event }.

Definition emit_event (e : event) (w : World) : World :=
  {| model := model w; label_encoder := label_encoder w; clock := clock w;
     ticks := ticks w; trace := e :: trace w |}.

(** Computations that may raise and that act on the process state. *)
Definition M (A : Type) : Type := World -> result A * World.

Definition ret {A} (a : A) : M A := fun w => (Ok a, w).

Definition bind {A B} (c : M A) (k : A -> M B) : M B :=
  fun w =>
    match c w with
    | (Ok a, w') => k a w'
    | (Raise e, w') => (Raise e, w')
    end.

Definition lift {A} (r : result A) : M A := fun w => (r, w).

Definition emit (e : event) : M unit := fun w => (Ok tt, emit_event e w).

Declare Scope handler_scope.
Delimit Scope handler_scope with handler.
Notation "x <- c ;; k" := (bind c (fun x => k))
  (at level 61, c at next level, right associativity) : handler_scope.
Notation "c ;;; k" := (bind c (fun _ => k))
  (at level 61, right associativity) : handler_scope.

(** [print(text)] *)
Definition print (text : str) : M unit := emit (Print text).

(** [app.logger.error(text)] *)
Definition logger_error (text : str) : M unit := emit (LogError text).

(** One reading of the system clock. *)
Definition read_clock (w : World) : datetime * World :=
  let t := clock w (ticks w) in
  (t, {| model := model w; label_encoder := label_encoder w;
         clock := clock w; ticks := S (ticks w);
         trace := ClockRead t :: trace w |}).

(** [datetime.datetime.now()] *)
Definition now : M datetime :=
  fun w => let '(t, w') := read_clock w in (Ok t, w').

(** [model.predict(np.array(data).reshape(1, -1))[0]] *)
Definition call_predict (m : Model) (data : list float) : M Z :=
  fun w => (model_predict m data, emit_event (ModelPredict data) w).

(** [label_encoder.inverse_transform([y])[0]] *)
Definition call_inverse_transform (le : LabelEncoder) (y : Z) : M str :=
  fun w => (inverse_transform le y, emit_event (LabelDecode y) w).

(** [try: c  except ValueError as e: ...  except Exception as e: ...] *)
Definition try_except {A} (c : M A) (on_value_error on_exception : str -> World -> A * World)
    : World -> A * World :=
  fun w =>
    match c w with
    | (Ok a, w') => (a, w')
    | (Raise (ValueError msg), w') => on_value_error msg w'
    | (Raise (OtherError msg), w') => on_exception msg w'
    end.

(** A view function: it reads [request.form] and the globals. *)
Definition Handler := Form -> World -> Response * World.

(* ================================================================== *)
(** ** The request handlers *)

(** [field not in request.form or not request.form[field].strip()] *)
Definition field_missing (form : Form) (field : str) : bool :=
  match form_lookup form field with
  | None => true
  | Some v => match strip v with [] => true | _ :: _ => false end
  end.

(** The decorator [validate_required_fields(required_fields)] applied to a
    view function [f]: the loop over the required fields returns at the first
    missing one, and [f] runs only after the loop. *)
Fixpoint validate_required_fields (required_fields : list str) (f : Handler) : Handler :=
  fun form w =>
    match required_fields with
    | [] => f form w
    | field :: rest =>
        if field_missing form field
        then (json_error (lit "Missing required field: " ++ field) 400, w)
        else validate_required_fields rest f form w
    end.

(** [sanitize_numeric_input(request.form[key], lo, hi, name)] *)
Definition numeric_field (form : Form) (key : str) (lo hi : Z) (name : str)
    : result float :=
  rbind (form_get form key)
        (fun value => sanitize_numeric_input value (Some lo) (Some hi) name).

(** [data[i]] *)
Definition item (data : list float) (i : nat) : float := nth i data S754_nan.

Definition models_not_loaded : str :=
  lit "Models not loaded properly. Please check model files.".

(** The list display [data = [...]] of [predict]. *)
Definition predict_data (form : Form) : result (list float) :=
  collect
    [ numeric_field form (lit "N") 0 200 (lit "Nitrogen (N)");
      numeric_field form (lit "P") 0 200 (lit "Phosphorus (P)");
      numeric_field form (lit "K") 0 200 (lit "Potassium (K)");
      numeric_field form (lit "temperature") (-50) 100 (lit "Temperature");
      numeric_field form (lit "humidity") 0 100 (lit "Humidity");
      numeric_field form (lit "ph") 0 14 (lit "pH");
      numeric_field form (lit "rainfall") 0 1000 (lit "Rainfall") ].

(** The view function [predict], before decoration. *)
Definition predict_view : Handler :=
  fun form w =>
    match model w, label_encoder w with
    | Some m, Some le =>
        try_except
          (data <- lift (predict_data form) ;;
           let input_params :=
             [ (lit "N", format_fixed 1 (item data 0));
               (lit "P", format_fixed 1 (item data 1));
               (lit "K", format_fixed 1 (item data 2));
               (lit "temperature", format_fixed 1 (item data 3));
               (lit "humidity", format_fixed 1 (item data 4));
               (lit "ph", format_fixed 2 (item data 5));
               (lit "rainfall", format_fixed 1 (item data 6)) ] in
           prediction_num <- call_predict m data ;;
           prediction_label <- call_inverse_transform le prediction_num ;;
           print ([9989%N] ++ lit " Prediction successful: " ++ prediction_label) ;;;
           ret (render_template (lit "result.html")
                  [ (lit "crop", CStr prediction_label);
                    (lit "params", CDict input_params) ]))%handler
          (fun msg w' =>
             (json_error msg 400,
              emit_event (Print ([10060%N] ++ lit " Validation error: " ++ msg)) w'))
          (fun msg w' =>
             (json_error (lit "Prediction failed. Please try again.") 500,
              emit_event (LogError (lit "Prediction error: " ++ msg))
                (emit_event (Print ([10060%N] ++ lit " Prediction error: " ++ msg)) w')))
          w
    | _, _ => (json_error models_not_loaded 500, w)
    end.

Definition predict_required : list str :=
  [ lit "N"; lit "P"; lit "K"; lit "temperature"; lit "humidity"; lit "ph";
    lit "rainfall" ].

(** The route [/predict]. *)
Definition predict : Handler := validate_required_fields predict_required predict_view.

(** The route [/] *)
Definition home : Handler :=
  fun _ w => (render_template (lit "index.html") [], w).

(** The route [/health] *)
Definition health_check : Handler :=
  fun _ w =>
    let '(t, w') := read_clock w in
    ({| status := 200;
        payload := Json
          [ (lit "status", JStr (lit "healthy"));
            (lit "models_loaded",
             JBool (match model w, label_encoder w with
                    | Some _, Some _ => true
                    | _, _ => false
                    end));
            (lit "timestamp", JStr (isoformat t)) ] |}, w').

(** One entry of the [params] dictionary of [download_report]: the display
    name and the sanitized value, formatted with [digits] decimals and
    followed by its unit. *)
Definition report_param (form : Form) (label key : str) (lo hi : Z) (name : str)
    (digits : nat) (unit : str) : result (str * str) :=
  rmap (fun v => (label, format_fixed digits v ++ unit))
       (numeric_field form key lo hi name).

(** The dictionary display [params = {...}] of [download_report], in
    insertion order. *)
Definition report_params (form : Form) : result (list (str * str)) :=
  collect
    [ report_param form (lit "Nitrogen (N)") (lit "N") 0 200 (lit "Nitrogen") 1 (lit " kg/ha");
      report_param form (lit "Phosphorus (P)") (lit "P") 0 200 (lit "Phosphorus") 1 (lit " kg/ha");
      report_param form (lit "Potassium (K)") (lit "K") 0 200 (lit "Potassium") 1 (lit " kg/ha");
      report_param form (lit "Temperature") (lit "temperature") (-50) 100 (lit "Temperature") 1 [176%N; 67%N];
      report_param form (lit "Humidity") (lit "humidity") 0 100 (lit "Humidity") 1 (lit "%");
      report_param form (lit "pH Level") (lit "ph") 0 14 (lit "pH") 2 [];
      report_param form (lit "Rainfall") (lit "rainfall") 0 1000 (lit "Rainfall") 1 (lit " mm") ].

(** The text of one line of the parameter list. *)
Definition param_line (param_name param_value : str) : str :=
  [8226%N] ++ lit " " ++ param_name ++ lit ": " ++ param_value.

(** The body of the loop [for param_name, param_value in params.items()]:
    one line is drawn at [y_position], which then moves down by 20. *)
Definition draw_param (st : list canvas_op * num) (entry : str * str)
    : list canvas_op * num :=
  let '(p, y_position) := st in
  let '(param_name, param_value) := entry in
  (p ++ [ drawString (Int 70) y_position (param_line param_name param_value) ],
   num_sub y_position (Int 20)).

Section Report.

(** [str.upper], the Unicode upper-casing of the interpreter. *)
Variable upper : str -> str.

(** [reportlab.lib.pagesizes.A4]: the width and the height of the page. *)
Variable A4 : float * float.

Definition report_footer_1 : str :=
  lit "Generated by AgriTech Crop Recommendation System".
Definition report_footer_2 : str :=
  lit "For agricultural guidance and optimal crop selection".
Definition report_title : str := [127806%N] ++ lit " Crop Recommendation Report".

(** The view function [download_report], before decoration. The canvas [p]
    is the list of the drawing calls made so far. *)
Definition download_report_view : Handler :=
  fun form =>
    try_except
      (crop_text <- lift (form_get form (lit "crop")) ;;
       let crop := sanitize_input (PyStr crop_text) 100 in
       params <- lift (report_params form) ;;
       let width := Float (fst A4) in
       let height := Float (snd A4) in
       let p := [ setFont (lit "Helvetica-Bold") 20;
                  drawString (Int 50) (num_sub height (Int 60)) report_title;
                  setFont (lit "Helvetica") 11 ] in
       t <- now ;;
       let current_time := strftime (lit "%Y-%m-%d %H:%M:%S") t in
       let p := p ++
                [ drawString (Int 50) (num_sub height (Int 85))
                    (lit "Generated on: " ++ current_time);
                  line (Int 50) (num_sub height (Int 100))
                       (num_sub width (Int 50)) (num_sub height (Int 100));
                  setFont (lit "Helvetica-Bold") 14;
                  drawString (Int 50) (num_sub height (Int 130))
                    ([128202%N] ++ lit " Input Parameters:");
                  setFont (lit "Helvetica") 12 ] in
       let y_position := num_sub height (Int 155) in
       let '(p, y_position) := fold_left draw_param params (p, y_position) in
       let y_position := num_sub y_position (Int 15) in
       let p := p ++
                [ setFont (lit "Helvetica-Bold") 14;
                  drawString (Int 50) y_position
                    ([127919%N] ++ lit " Recommendation Result:") ] in
       let y_position := num_sub y_position (Int 25) in
       let p := p ++
                [ setFont (lit "Helvetica-Bold") 16;
                  setFillColorRGB (Float (float_of_decimal false 2 1))
                                  (Float (float_of_decimal false 6 1))
                                  (Float (float_of_decimal false 2 1));
                  drawString (Int 70) y_position (lit "Recommended Crop: " ++ upper crop);
                  setFillColorRGB (Int 0) (Int 0) (Int 0);
                  setFont (lit "Helvetica-Oblique") 10;
                  drawString (Int 50) (Int 50) report_footer_1;
                  drawString (Int 50) (Int 35) report_footer_2;
                  showPage;
                  save ] in
       t' <- now ;;
       let filename := lit "crop_recommendation_" ++ crop ++ lit "_"
                         ++ strftime (lit "%Y%m%d_%H%M%S") t' ++ lit ".pdf" in
       lift (send_file p filename (lit "application/pdf")))%handler
      (fun msg w' => (json_error msg 400, w'))
      (fun msg w' =>
         (json_error (lit "Failed to generate PDF report") 500,
          emit_event (LogError (lit "PDF generation error: " ++ msg)) w')).

Definition report_required : list str := lit "crop" :: predict_required.

(** The route [/download_report]. *)
Definition download_report : Handler :=
  validate_required_fields report_required download_report_view.

(** ** The process: requests served one after the other *)

Inductive request : Type :=
| GetHome
| PostPredict (form : Form)
| PostDownloadReport (form : Form)
| GetHealth.

Definition dispatch (r : request) (w : World) : Response * World :=
  match r with
  | GetHome => home [] w
  | PostPredict form => predict form w
  | PostDownloadReport form => download_report form w
  | GetHealth => health_check [] w
  end.

Fixpoint serve (rs : list request) (w : World) : list Response * World :=
  match rs with
  | [] => ([], w)
  | r :: rest =>
      let '(resp, w') := dispatch r w in
      let '(resps, w'') := serve rest w' in
      (resp :: resps, w'')
  end.

End Report.

(* ================================================================== *)
(** ** Vocabulary of the properties *)

(** [x < n], [x > n] and [x = n] on the values denoted: an infinity is below
    (or above) every integer, NaN is neither. *)
Definition below (n : Z) (x : float) : Prop :=
  match x with
  | S754_nan => False
  | S754_infinity s => s = true
  | S754_zero _ => (0 < inject_Z n)%Q
  | S754_finite s m e => (F2Q s m e < inject_Z n)%Q
  end.

Definition above (n : Z) (x : float) : Prop :=
  match x with
  | S754_nan => False
  | S754_infinity s => s = false
  | S754_zero _ => (inject_Z n < 0)%Q
  | S754_finite s m e => (inject_Z n < F2Q s m e)%Q
  end.

Definition equals (n : Z) (x : float) : Prop :=
  exists q, float_value x = Some q /\ (q == inject_Z n)%Q.

(** The optional bounds of the sanitizer: no bound, no violation. *)
Definition below_min (min_val : option Z) (x : float) : Prop :=
  match min_val with Some lo => below lo x | None => False end.

Definition above_max (max_val : option Z) (x : float) : Prop :=
  match max_val with Some hi => above hi x | None => False end.

(** The message [msg] names the field [name]. *)
Definition mentions (name msg : str) : Prop :=
  exists pre post, msg = pre ++ name ++ post.

(** A form field that is absent, or that holds only whitespace. *)
Definition absent_or_blank (form : Form) (field : str) : Prop :=
  match form_lookup form field with
  | None => True
  | Some v => Forall (fun c => isspace c = true) v
  end.

(** [field] is the first of the [required] fields, in their declared order,
    that is absent or blank. *)
Definition first_missing (form : Form) (required : list str) (field : str) : Prop :=
  exists before after,
    required = before ++ field :: after /\
    Forall (fun k => ~ absent_or_blank form k) before /\
    absent_or_blank form field.

Definition all_present (form : Form) (required : list str) : Prop :=
  Forall (fun k => ~ absent_or_blank form k) required.

(** The seven numeric fields of the interface with their declared inclusive
    bounds, and the name each has in the messages of [/predict]. *)
Record field_spec : Type :=
  { key : str; lo : Z; hi : Z; display : str }.

Definition field_N : field_spec :=
  {| key := lit "N"; lo := 0; hi := 200; display := lit "Nitrogen (N)" |}.
Definition field_P : field_spec :=
  {| key := lit "P"; lo := 0; hi := 200; display := lit "Phosphorus (P)" |}.
Definition field_K : field_spec :=
  {| key := lit "K"; lo := 0; hi := 200; display := lit "Potassium (K)" |}.
Definition field_temperature : field_spec :=
  {| key := lit "temperature"; lo := -50; hi := 100; display := lit "Temperature" |}.
Definition field_humidity : field_spec :=
  {| key := lit "humidity"; lo := 0; hi := 100; display := lit "Humidity" |}.
Definition field_ph : field_spec :=
  {| key := lit "ph"; lo := 0; hi := 14; display := lit "pH" |}.
Definition field_rainfall : field_spec :=
  {| key := lit "rainfall"; lo := 0; hi := 1000; display := lit "Rainfall" |}.

Definition predict_fields : list field_spec :=
  [ field_N; field_P; field_K; field_temperature; field_humidity; field_ph;
    field_rainfall ].

(** The submitted text of field [f] parses, after cleaning, to [x]. *)
Definition parsed (form : Form) (f : field_spec) (x : float) : Prop :=
  exists v, form_lookup form (key f) = Some v /\
            py_float (re_sub_non_numeric v) = Some x.

Definition unparseable (form : Form) (f : field_spec) : Prop :=
  exists v, form_lookup form (key f) = Some v /\
            py_float (re_sub_non_numeric v) = None.

Definition out_of_range (form : Form) (f : field_spec) : Prop :=
  exists x, parsed form f x /\ ~ within (lo f) (hi f) x.

Definition field_valid (form : Form) (f : field_spec) : Prop :=
  exists x, parsed form f x /\ within (lo f) (hi f) x.

(** What [/predict] does with field [f]. *)
Definition check_field (form : Form) (f : field_spec) : result float :=
  numeric_field form (key f) (lo f) (hi f) (display f).

Definition is_inference (e : event) : bool :=
  match e with
  | ModelPredict _ | LabelDecode _ => true
  | _ => false
  end.

(** The calls made to the classifier and to the label decoder. *)
Definition inference_events (tr : list event) : list event := filter is_inference tr.

Definition degraded (w : World) : Prop :=
  model w = None \/ label_encoder w = None.

(** The same process with other artifacts loaded. *)
Definition with_artifacts (m : option Model) (le : option LabelEncoder) (w : World) : World :=
  {| model := m; label_encoder := le; clock := clock w; ticks := ticks w;
     trace := trace w |}.

(** What a reader of the document sees, in drawing order. *)
Inductive element : Type :=
| Text (s : str)
| Divider.

Definition element_of (op : canvas_op) : list element :=
  match op with
  | drawString _ _ text => [Text text]
  | line _ _ _ _ => [Divider]
  | _ => []
  end.

Definition elements (ops : list canvas_op) : list element := flat_map element_of ops.

Definition pages (ops : list canvas_op) : nat :=
  List.length (filter (fun op => match op with showPage => true | _ => false end) ops).

(** The crop label a result view shows. *)
Definition crop_label (resp : Response) : option str :=
  match payload resp with
  | Template _ ((_, CStr label) :: _) => Some label
  | _ => None
  end.

(** The display names of the report's parameters, in insertion order. *)
Definition report_names : list str :=
  [ lit "Nitrogen (N)"; lit "Phosphorus (P)"; lit "Potassium (K)";
    lit "Temperature"; lit "Humidity"; lit "pH Level"; lit "Rainfall" ].

(** A text without carriage return or line feed. *)
Definition single_line (s : str) : Prop :=
  Forall (fun c => c <> 10%N /\ c <> 13%N) s.

(** The shape [YYYYMMDD_HHMMSS]. *)
Definition is_stamp (s : str) : Prop :=
  exists d t, s = d ++ lit "_" ++ t /\
    List.length d = 8%nat /\ List.length t = 6%nat /\
    Forall (fun c => is_digit c = true) (d ++ t).

(** ** Sample data *)

Definition ascii_upper (s : str) : str :=
  map (fun c => if ((97 <=? c) && (c <=? 122))%N then (c - 32)%N else c) s.

Definition sample_time : datetime :=
  {| year := 2024; month := 3; day := 9; hour := 14; minute := 5; second := 7;
     microsecond := 250 |}.

Definition sample_model : Model := {| model_predict := fun _ => Ok 20 |}.
Definition sample_encoder : LabelEncoder :=
  {| inverse_transform := fun _ => Ok (lit "rice") |}.

Definition sample_world : World :=
  {| model := Some sample_model; label_encoder := Some sample_encoder;
     clock := fun _ => sample_time; ticks := 0; trace := [] |}.

Definition degraded_world : World := with_artifacts None None sample_world.

(** 210 mm by 297 mm, in points. *)
Definition sample_A4 : float * float :=
  (float_of_decimal false 5952755905511812 13,
   float_of_decimal false 8418897637795277 13).

(** A submission of the eight fields, each once. *)
Definition make_form (crop n p k temperature humidity ph rainfall : string) : Form :=
  [ (lit "crop", lit crop); (lit "N", lit n); (lit "P", lit p); (lit "K", lit k);
    (lit "temperature", lit temperature); (lit "humidity", lit humidity);
    (lit "ph", lit ph); (lit "rainfall", lit rainfall) ].

Definition sample_form : Form :=
  make_form "rice" "90" "42" "43" "20.8" "82" "6.5" "202.9".


(** Nitrogen below its minimum. *)
Definition form_low_N : Form :=
  make_form "rice" "-1" "42" "43" "20.8" "82" "6.5" "202.9".

(** Nitrogen below its minimum and phosphorus above its maximum. *)
Definition form_low_N_high_P : Form :=
  make_form "rice" "-1" "500" "43" "20.8" "82" "6.5" "202.9".

(** Nitrogen that does not parse. *)
Definition form_bad_N : Form :=
  make_form "rice" "abc" "42" "43" "20.8" "82" "6.5" "202.9".

(** A crop name with a line feed in it. *)
Definition form_newline_crop : Form :=
  [ (lit "crop", lit "ri" ++ [10%N] ++ lit "ce"); (lit "N", lit "90");
    (lit "P", lit "42"); (lit "K", lit "43"); (lit "temperature", lit "20.8");
    (lit "humidity", lit "82"); (lit "ph", lit "6.5");
    (lit "rainfall", lit "202.9") ].



(** The value [-1.0]. *)
Definition minus_one : float := float_of_decimal true 1 0.

(** The value [500.0]. *)
Definition five_hundred : float := float_of_decimal false 500 0.

Definition sample_requests : list request :=
  [ PostPredict sample_form; GetHealth; PostDownloadReport sample_form;
    PostPredict form_bad_N; GetHome ].

(* ================================================================== *)
(** ** Start-up: loading the two artifacts *)

(** What the start-up code finds on disk: whether each file exists
    ([os.path.exists]), what [joblib.load] gives for it, and the two
    attributes of the loaded objects that the start-up messages print. *)
Record Disk : Type :=
  { model_exists : bool;
    encoder_exists : bool;
    load_model : result Model;
    load_encoder : result LabelEncoder;
    model_type : Model -> str;
    classes_len : LabelEncoder -> result N }.

(** [str(e)] *)
Definition exn_message (e : exn) : str :=
  match e with ValueError msg | OtherError msg => msg end.

(** The body of the [try] block at module level. *)
Definition load_models (d : Disk) : M (Model * LabelEncoder) :=
  (_ <- (if negb (model_exists d) || negb (encoder_exists d)
         then lift (Raise (OtherError (lit "Model files not found")))
         else ret tt) ;;
   m <- lift (load_model d) ;;
   le <- lift (load_encoder d) ;;
   print ([9989%N] ++ lit " Models loaded successfully!") ;;;
   print (lit "Model type: " ++ model_type d m) ;;;
   n <- lift (classes_len d le) ;;
   print (lit "Available crops: " ++ str_of_N n ++ lit " classes") ;;;
   ret (m, le))%handler.

(** The process state once the module is imported: [except Exception]
    leaves both globals [None]. *)
Definition startup (d : Disk) (clk : nat -> datetime) : World :=
  let w0 := {| model := None; label_encoder := None; clock := clk;
               ticks := 0; trace := [] |} in
  match load_models d w0 with
  | (Ok (m, le), w) => with_artifacts (Some m) (Some le) w
  | (Raise e, w) =>
      with_artifacts None None
        (emit_event (Print ([10060%N] ++ lit " Error loading models: "
                              ++ exn_message e)) w)
  end.

(* ================================================================== *)
(** ** Further vocabulary *)

Definition sign_text (neg : bool) : str := if neg then [45%N] else [].

Definition all_digits (s : str) : Prop := Forall (fun c => is_digit c = true) s.

(** The decimal numerals: an optional minus sign, then digits, or digits
    around one point with a digit on at least one side. *)
Inductive numeral : str -> bool -> str -> str -> Prop :=
| numeral_integer (neg : bool) (ip : str) :
    ip <> [] -> all_digits ip ->
    numeral (sign_text neg ++ ip) neg ip []
| numeral_point (neg : bool) (ip fp : str) :
    ip ++ fp <> [] -> all_digits ip -> all_digits fp ->
    numeral (sign_text neg ++ ip ++ 46%N :: fp) neg ip fp.

(** The numeric fields of [/download_report], under the names its messages
    use. *)
Definition report_fields : list field_spec :=
  [ {| key := lit "N"; lo := 0; hi := 200; display := lit "Nitrogen" |};
    {| key := lit "P"; lo := 0; hi := 200; display := lit "Phosphorus" |};
    {| key := lit "K"; lo := 0; hi := 200; display := lit "Potassium" |};
    {| key := lit "temperature"; lo := -50; hi := 100; display := lit "Temperature" |};
    {| key := lit "humidity"; lo := 0; hi := 100; display := lit "Humidity" |};
    {| key := lit "ph"; lo := 0; hi := 14; display := lit "pH" |};
    {| key := lit "rainfall"; lo := 0; hi := 1000; display := lit "Rainfall" |} ].

(** How [/download_report] labels and formats each of its numeric fields. *)
Definition report_formats : list (float -> str * str) :=
  [ (fun v => (lit "Nitrogen (N)", format_fixed 1 v ++ lit " kg/ha"));
    (fun v => (lit "Phosphorus (P)", format_fixed 1 v ++ lit " kg/ha"));
    (fun v => (lit "Potassium (K)", format_fixed 1 v ++ lit " kg/ha"));
    (fun v => (lit "Temperature", format_fixed 1 v ++ [176%N; 67%N]));
    (fun v => (lit "Humidity", format_fixed 1 v ++ lit "%"));
    (fun v => (lit "pH Level", format_fixed 2 v ++ []));
    (fun v => (lit "Rainfall", format_fixed 1 v ++ lit " mm")) ].

(** The parameters the result view of [/predict] echoes. *)
Definition echoed_params (data : list float) : list (str * str) :=
  [ (lit "N", format_fixed 1 (item data 0));
    (lit "P", format_fixed 1 (item data 1));
    (lit "K", format_fixed 1 (item data 2));
    (lit "temperature", format_fixed 1 (item data 3));
    (lit "humidity", format_fixed 1 (item data 4));
    (lit "ph", format_fixed 2 (item data 5));
    (lit "rainfall", format_fixed 1 (item data 6)) ].

(** ** More sample data *)

Definition sample_clock : nat -> datetime := fun _ => sample_time.

(** Both files present and loadable. *)
Definition sample_disk : Disk :=
  {| model_exists := true; encoder_exists := true;
     load_model := Ok sample_model; load_encoder := Ok sample_encoder;
     model_type := fun _ => lit "<class 'RandomForestClassifier'>";
     classes_len := fun _ => Ok 22%N |}.

(** The encoder file is missing. *)
Definition disk_without_encoder : Disk :=
  {| model_exists := true; encoder_exists := false;
     load_model := Ok sample_model; load_encoder := Ok sample_encoder;
     model_type := fun _ => lit "<class 'RandomForestClassifier'>";
     classes_len := fun _ => Ok 22%N |}.

(** A classifier that rejects its input with a [ValueError]. *)
Definition rejecting_model : Model :=
  {| model_predict := fun _ => Raise (ValueError (lit "X has 7 features")) |}.

(** Humidity above its maximum. *)
Definition form_high_humidity : Form :=
  make_form "rice" "90" "42" "43" "20.8" "120" "6.5" "202.9".

(** A sample form with a field the handlers do not read. *)
Definition form_with_extra : Form := sample_form ++ [(lit "note", lit "x")].

(** The data vector of the sample form. *)
Definition sample_data : list float :=
  [ float_of_decimal false 90 0; float_of_decimal false 42 0;
    float_of_decimal false 43 0; float_of_decimal false 208 1;
    float_of_decimal false 82 0; float_of_decimal false 65 1;
    float_of_decimal false 2029 1 ].

(** The sample process with the rejecting classifier loaded. *)
Definition rejecting_world : World :=
  with_artifacts (Some rejecting_model) (Some sample_encoder) sample_world.

(** The value [120.0]. *)
Definition one_hundred_twenty : float := float_of_decimal false 120 0.

(** ** Proof automation *)

(** Case analysis along the control flow of [predict_view]. *)
Ltac run_predict_view form w :=
  unfold predict_view, try_except, bind, lift, call_predict,
    call_inverse_transform, print, emit, ret;
  let m := fresh "m" in
  let le := fresh "le" in
  let data := fresh "data" in
  let y := fresh "y" in
  let l := fresh "l" in
  let msg := fresh "msg" in
  let Hm := fresh "Hm" in
  let Hle := fresh "Hle" in
  let Hdata := fresh "Hdata" in
  let Hy := fresh "Hy" in
  let Hl := fresh "Hl" in
  destruct (model w) as [m|] eqn:Hm;
  [ destruct (label_encoder w) as [le|] eqn:Hle;
    [ destruct (predict_data form) as [data|[msg|msg]] eqn:Hdata;
      [ destruct (model_predict m data) as [y|[msg|msg]] eqn:Hy;
        [ destruct (inverse_transform le y) as [l|[msg|msg]] eqn:Hl | | ]
      | | ]
    | ]
  | ];
  cbn [fst snd trace model label_encoder clock ticks emit_event status payload
       json_error render_template].

(** Case analysis along the control flow of [download_report_view]. *)
Ltac run_download_report_view form w :=
  unfold download_report_view, try_except, bind, lift, now, read_clock, ret,
    form_get, send_file;
  let c := fresh "c" in
  let Hc := fresh "Hc" in
  let params := fresh "params" in
  let Hp := fresh "Hp" in
  let msg := fresh "msg" in
  destruct (form_lookup form (lit "crop")) as [c|] eqn:Hc;
  [ destruct (report_params form) as [params|[msg|msg]] eqn:Hp;
    [ let p := fresh "p" in
      let y := fresh "y" in
      let Hfold := fresh "Hfold" in
      let Hnl := fresh "Hnl" in
      match goal with
      | |- context [fold_left draw_param params ?st] =>
          destruct (fold_left draw_param params st) as [p y] eqn:Hfold
      end;
      match goal with
      | |- context [has_newline ?name] =>
          destruct (has_newline name) eqn:Hnl
      end
    | | ]
  | ];
  cbn [fst snd trace model label_encoder clock ticks emit_event status payload
       json_error].

(* ================================================================== *)
(** * Properties *)

(** *** Floats: comparison with an integer, and parsing never yields NaN *)
Lemma float_lt_int_below x n : float_lt_int x n = true <-> below n x.
Proof.
  unfold float_lt_int, below, float_cmp_int.
  destruct x as [s|s| |s m e].
  - rewrite Qlt_alt. unfold Qcompare.
    destruct n; simpl; split; congruence.
  - destruct s; split; congruence.
  - split; [discriminate | tauto].
  - rewrite Qlt_alt. destruct (F2Q s m e ?= inject_Z n)%Q; split; congruence.
Qed.

Lemma float_gt_int_above x n : float_gt_int x n = true <-> above n x.
Proof.
  unfold float_gt_int, above, float_cmp_int.
  destruct x as [s|s| |s m e].
  - rewrite Qlt_alt. unfold Qcompare.
    destruct n; simpl; split; congruence.
  - destruct s; split; congruence.
  - split; [discriminate | tauto].
  - change (inject_Z n < F2Q s m e)%Q with (F2Q s m e > inject_Z n)%Q.
    rewrite Qgt_alt. destruct (F2Q s m e ?= inject_Z n)%Q; split; congruence.
Qed.

Lemma within_iff lo hi x :
  x <> S754_nan -> (within lo hi x <-> ~ below lo x /\ ~ above hi x).
Proof.
  intros Hnan. unfold within, below, above.
  destruct x as [s|s| |s m e]; simpl.
  - split.
    + intros (q & Hq & H1 & H2). injection Hq as <-. split; apply Qle_not_lt; assumption.
    + intros [H1 H2]. exists 0%Q. repeat split; apply Qnot_lt_le; assumption.
  - split.
    + intros (q & Hq & _). discriminate.
    + intros [H1 H2]. destruct s; [elim H1 | elim H2]; reflexivity.
  - congruence.
  - split.
    + intros (q & Hq & H1 & H2). injection Hq as <-. split; apply Qle_not_lt; assumption.
    + intros [H1 H2]. exists (F2Q s m e). repeat split; apply Qnot_lt_le; assumption.
Qed.

(* not nan *)
Lemma shr_1_nonneg mrs : 0 <= shr_m mrs -> 0 <= shr_m (shr_1 mrs).
Proof.
  destruct mrs as [m r s]; simpl.
  destruct m as [|p|p]; simpl; [lia| |lia].
  destruct p; simpl; lia.
Qed.

Lemma iter_shr_1_nonneg p : forall mrs, 0 <= shr_m mrs -> 0 <= shr_m (iter_pos shr_1 p mrs).
Proof.
  induction p; intros mrs H; simpl; auto using shr_1_nonneg.
Qed.

Lemma shr_fexp_nonneg m e l :
  0 <= m -> 0 <= shr_m (fst (shr_fexp prec emax m e l)).
Proof.
  intros H. unfold shr_fexp, shr.
  assert (H0 : 0 <= shr_m (shr_record_of_loc m l)).
  { destruct l as [|[]]; simpl; assumption. }
  destruct (fexp prec emax (Zdigits2 m + e) - e); simpl; auto.
  apply iter_shr_1_nonneg; assumption.
Qed.

Lemma round_nearest_even_nonneg m l : 0 <= m -> 0 <= round_nearest_even m l.
Proof.
  intros H. destruct l as [|[]]; simpl; try lia.
  destruct (Z.even m); lia.
Qed.

Lemma binary_round_aux_not_nan s m e l :
  0 <= m -> binary_round_aux prec emax s m e l <> S754_nan.
Proof.
  intros H. unfold binary_round_aux.
  pose proof (shr_fexp_nonneg e l H) as H1.
  destruct (shr_fexp prec emax m e l) as [mrs' e']. simpl in H1.
  pose proof (round_nearest_even_nonneg (loc_of_shr_record mrs') H1) as H2.
  pose proof (shr_fexp_nonneg e' loc_Exact H2) as H3.
  destruct (shr_fexp prec emax (round_nearest_even (shr_m mrs') (loc_of_shr_record mrs')) e' loc_Exact) as [mrs'' e''].
  simpl in H3.
  destruct (shr_m mrs'') as [|p|p]; try discriminate.
  - destruct (e'' <=? emax - prec); discriminate.
  - lia.
Qed.

Lemma float_of_decimal_not_nan neg m k : float_of_decimal neg m k <> S754_nan.
Proof.
  unfold float_of_decimal. destruct m as [|p]; [discriminate|].
  unfold SFdiv_core_binary.
  set (e' := Z.min _ _). set (s := 0 - 0 - e').
  set (m' := match s with Z0 => Zpos p | Zpos _ => Z.shiftl (Zpos p) s | Zneg _ => 0 end).
  assert (Hm' : 0 <= m').
  { subst m'. destruct s; try lia. apply Z.shiftl_nonneg. lia. }
  assert (Hq : 0 <= fst (Z.div_eucl m' (10 ^ Z.of_nat k))).
  { change (0 <= m' / 10 ^ Z.of_nat k). apply Z.div_pos; [assumption|].
    apply Z.pow_pos_nonneg; lia. }
  destruct (Z.div_eucl m' (10 ^ Z.of_nat k)) as [q r]. simpl in Hq.
  apply binary_round_aux_not_nan; assumption.
Qed.

Lemma py_float_not_nan s x : py_float s = Some x -> x <> S754_nan.
Proof.
  unfold py_float.
  destruct (match s with [] => (false, s) | c :: t => if (c =? 45)%N then (true, t) else (false, s) end) as [neg body].
  destruct (span_digits body) as [ip rest].
  destruct (match rest with [] => ([], rest) | c :: t => if (c =? 46)%N then span_digits t else ([], rest) end) as [fp rest'].
  destruct rest'; [|discriminate].
  destruct (ip ++ fp); [discriminate|].
  intros H; injection H as <-. apply float_of_decimal_not_nan.
Qed.

(** *** Whitespace *)

Lemma lstrip_nil_iff s : lstrip s = [] <-> Forall (fun c => isspace c = true) s.
Proof.
  induction s as [|c t IH]; simpl.
  - split; auto.
  - destruct (isspace c) eqn:Hc.
    + rewrite IH. split; intros H.
      * constructor; assumption.
      * inversion H; assumption.
    + split; intros H; [discriminate|].
      inversion H; congruence.
Qed.

Lemma lstrip_head s c t : lstrip s = c :: t -> isspace c = false.
Proof.
  induction s as [|a s IH]; simpl; [discriminate|].
  destruct (isspace a) eqn:Ha; auto.
  intros H; injection H as <- _. assumption.
Qed.

Lemma strip_nil_iff s : strip s = [] <-> Forall (fun c => isspace c = true) s.
Proof.
  unfold strip, rstrip. split.
  - intros H.
    apply (f_equal (@rev N)) in H. rewrite rev_involutive in H. simpl in H.
    apply lstrip_nil_iff in H.
    destruct (lstrip s) as [|c t] eqn:Hs.
    + apply lstrip_nil_iff; assumption.
    + apply lstrip_head in Hs.
      rewrite Forall_forall in H. specialize (H c).
      rewrite H in Hs; [discriminate|]. apply in_rev. rewrite rev_involutive. left; reflexivity.
  - intros H. apply lstrip_nil_iff in H. rewrite H. reflexivity.
Qed.

Lemma field_missing_iff form field :
  field_missing form field = true <-> absent_or_blank form field.
Proof.
  unfold field_missing, absent_or_blank.
  destruct (form_lookup form field) as [v|]; [|tauto].
  rewrite <- strip_nil_iff. destruct (strip v); split; congruence.
Qed.

(** *** The numeric sanitizer *)

Lemma mentions_intro pre name post : mentions name (pre ++ name ++ post).
Proof. exists pre, post; reflexivity. Qed.

Lemma sanitize_numeric_input_cases value min_val max_val name :
  let r := sanitize_numeric_input value min_val max_val name in
  match py_float (re_sub_non_numeric value) with
  | None =>
      r = Raise (ValueError (lit "Invalid " ++ name ++ lit ": "
                   ++ lit "could not convert string to float: "
                   ++ repr (re_sub_non_numeric value)))
  | Some x =>
      (below_min min_val x /\
       exists n, min_val = Some n /\
         r = Raise (ValueError (lit "Invalid " ++ name ++ lit ": "
                      ++ name ++ lit " must be at least " ++ str_of_Z n)))
      \/ (~ below_min min_val x /\ above_max max_val x /\
          exists n, max_val = Some n /\
            r = Raise (ValueError (lit "Invalid " ++ name ++ lit ": "
                         ++ name ++ lit " must be at most " ++ str_of_Z n)))
      \/ (~ below_min min_val x /\ ~ above_max max_val x /\ r = Ok x)
  end.
Proof.
  unfold sanitize_numeric_input, below_min, above_max.
  destruct (py_float (re_sub_non_numeric value)) as [x|]; [|reflexivity].
  destruct min_val as [a|], max_val as [b|];
    try destruct (float_lt_int x a) eqn:Hlt;
    try destruct (float_gt_int x b) eqn:Hgt;
    repeat match goal with
    | H : float_lt_int _ _ = true |- _ => apply float_lt_int_below in H
    | H : float_gt_int _ _ = true |- _ => apply float_gt_int_above in H
    | H : float_lt_int ?y ?n = false |- _ =>
        assert (~ below n y) by (rewrite <- float_lt_int_below; congruence); clear H
    | H : float_gt_int ?y ?n = false |- _ =>
        assert (~ above n y) by (rewrite <- float_gt_int_above; congruence); clear H
    end;
    first
      [ left; split; [assumption | eexists; split; reflexivity]
      | right; left; split; [solve [auto] | split; [assumption | eexists; split; reflexivity]]
      | right; right; split; [solve [auto] | split; [solve [auto] | reflexivity]] ].
Qed.



Lemma sanitize_numeric_input_ok_iff value min_val max_val name x :
  sanitize_numeric_input value min_val max_val name = Ok x <->
  py_float (re_sub_non_numeric value) = Some x /\
  ~ below_min min_val x /\ ~ above_max max_val x.
Proof.
  pose proof (sanitize_numeric_input_cases value min_val max_val name) as H.
  cbv zeta in H.
  destruct (py_float (re_sub_non_numeric value)) as [y|].
  - destruct H as [(Hb & n & _ & ->)|[(Hb & Ha & n & _ & ->)|(Hb & Ha & ->)]].
    + split; [discriminate|]. intros (E & Hb' & _). injection E as ->. tauto.
    + split; [discriminate|]. intros (E & _ & Ha'). injection E as ->. tauto.
    + split.
      * intros E; injection E as ->. auto.
      * intros (E & _). congruence.
  - rewrite H. split; [discriminate|]. intros (E & _); discriminate.
Qed.

Lemma sanitize_numeric_input_raise value min_val max_val name e :
  sanitize_numeric_input value min_val max_val name = Raise e ->
  exists msg, e = ValueError msg /\ mentions name msg.
Proof.
  pose proof (sanitize_numeric_input_cases value min_val max_val name) as H.
  cbv zeta in H.
  destruct (py_float (re_sub_non_numeric value)) as [y|].
  - destruct H as [(Hb & n & _ & ->)|[(Hb & Ha & n & _ & ->)|(Hb & Ha & ->)]];
      intros E; [| |discriminate]; injection E as <-;
      (eexists; split; [reflexivity|]); apply (mentions_intro (lit "Invalid ")).
  - rewrite H. intros E; injection E as <-.
    eexists; split; [reflexivity|]. apply (mentions_intro (lit "Invalid ")).
Qed.

(** Claim C2. The numeric sanitizer first deletes every character other
    than the digits, the point and the minus sign, then parses what remains
    as a float. It returns the parsed value exactly when the parse succeeds
    and the value is neither below the lower bound nor above the upper bound
    (a bound that is not given is not checked); it fails with a [ValueError]
    whose message names the field exactly when the parse fails or the value
    is outside the bounds, and it fails in no other way. It is a function of
    its four arguments and leaves the process state as it found it. *)
Theorem sanitize_numeric_input_contract
    (value : str) (min_val max_val : option Z) (field_name : str) :
  let cleaned := re_sub_non_numeric value in
  let r := sanitize_numeric_input value min_val max_val field_name in
  (forall c, In c cleaned <->
             In c value /\ (is_digit c = true \/ c = 46%N \/ c = 45%N)) /\
  (forall x, r = Ok x <->
             py_float cleaned = Some x /\
             ~ below_min min_val x /\ ~ above_max max_val x) /\
  ((exists msg, r = Raise (ValueError msg) /\ mentions field_name msg) <->
   (py_float cleaned = None \/
    exists x, py_float cleaned = Some x /\
              (below_min min_val x \/ above_max max_val x))) /\
  (forall e, r = Raise e -> exists msg, e = ValueError msg /\ mentions field_name msg) /\
  (forall w : World, lift r w = (r, w)).
Proof.
  cbv zeta. split; [|split; [|split; [|split]]].
  - intros c. unfold re_sub_non_numeric. rewrite filter_In. unfold numeric_char.
    rewrite !orb_true_iff, !N.eqb_eq. tauto.
  - intros x. apply sanitize_numeric_input_ok_iff.
  - split.
    + intros (msg & Hr & _).
      pose proof (sanitize_numeric_input_cases value min_val max_val field_name) as H.
      cbv zeta in H.
      destruct (py_float (re_sub_non_numeric value)) as [y|]; [|left; reflexivity].
      right. exists y. split; [reflexivity|].
      destruct H as [(Hb & _)|[(_ & Ha & _)|(_ & _ & E)]]; auto. congruence.
    + intros H.
      destruct (sanitize_numeric_input value min_val max_val field_name) as [x|e] eqn:Hr.
      * apply sanitize_numeric_input_ok_iff in Hr. destruct Hr as (E & Hb & Ha).
        destruct H as [H|(y & Hy & H)]; [congruence|].
        assert (y = x) by congruence. subst y. tauto.
      * destruct (sanitize_numeric_input_raise _ _ _ _ Hr) as (msg & -> & Hm).
        exists msg; auto.
  - apply sanitize_numeric_input_raise.
  - reflexivity.
Qed.

(** *** The presence check *)

Lemma validate_required_fields_missing required view form w field :
  first_missing form required field ->
  validate_required_fields required view form w
  = (json_error (lit "Missing required field: " ++ field) 400, w).
Proof.
  intros (before & after & -> & Hb & Hm).
  induction before as [|k before IH]; simpl.
  - apply field_missing_iff in Hm. rewrite Hm. reflexivity.
  - inversion Hb as [|? ? Hk Hb']; subst.
    destruct (field_missing form k) eqn:E.
    + apply field_missing_iff in E. contradiction.
    + apply IH; assumption.
Qed.

Lemma validate_required_fields_present required view form w :
  all_present form required ->
  validate_required_fields required view form w = view form w.
Proof.
  unfold all_present. induction 1 as [|k rest Hk _ IH]; simpl; [reflexivity|].
  destruct (field_missing form k) eqn:E; [|assumption].
  apply field_missing_iff in E. contradiction.
Qed.

Lemma first_missing_or_all_present form required :
  (exists field, first_missing form required field) \/ all_present form required.
Proof.
  induction required as [|k rest IH].
  - right. constructor.
  - destruct (field_missing form k) eqn:E.
    + left. exists k, [], rest. repeat split; [constructor|].
      apply field_missing_iff; assumption.
    + assert (Hk : ~ absent_or_blank form k).
      { rewrite <- field_missing_iff. congruence. }
      destruct IH as [(field & before & after & -> & Hb & Hm)|Hall].
      * left. exists field, (k :: before), after. repeat split; auto.
      * right. constructor; assumption.
Qed.

Lemma first_missing_exists form required :
  (exists k, In k required /\ absent_or_blank form k) ->
  exists field, first_missing form required field.
Proof.
  intros (k & Hin & Hk).
  destruct (first_missing_or_all_present form required) as [H|H]; [assumption|].
  unfold all_present in H. rewrite Forall_forall in H.
  elim (H k Hin Hk).
Qed.

Lemma all_present_check form required :
  forallb (fun k => negb (field_missing form k)) required = true ->
  all_present form required.
Proof.
  rewrite forallb_forall. intros H. apply Forall_forall. intros k Hin.
  specialize (H k Hin). rewrite <- field_missing_iff.
  destruct (field_missing form k); [discriminate|congruence].
Qed.

Lemma present_lookup form k :
  ~ absent_or_blank form k -> exists v, form_lookup form k = Some v.
Proof.
  unfold absent_or_blank. destruct (form_lookup form k) as [v|]; [eauto|tauto].
Qed.

(** *** Left-to-right evaluation of a display *)

Lemma collect_map_ok {A B} (g : A -> result B) l data :
  collect (map g l) = Ok data <-> Forall2 (fun a b => g a = Ok b) l data.
Proof.
  revert data. induction l as [|a l IH]; intros data; simpl.
  - split.
    + intros H; injection H as <-. constructor.
    + intros H; inversion H; reflexivity.
  - destruct (g a) as [b|e] eqn:Hg; simpl.
    + destruct (collect (map g l)) as [bs|e] eqn:Hc; simpl.
      * split.
        -- intros H; injection H as <-. constructor; [assumption|]. apply IH; reflexivity.
        -- intros H; inversion H as [|? b' ? bs' Hb Hbs]; subst.
           apply IH in Hbs. congruence.
      * split; [discriminate|].
        intros H; inversion H as [|? b' ? bs' Hb Hbs]; subst.
        apply IH in Hbs. discriminate.
    + split; [discriminate|].
      intros H; inversion H; congruence.
Qed.

Lemma collect_map_raise {A B} (g : A -> result B) before a after e :
  Forall (fun b => exists y, g b = Ok y) before ->
  g a = Raise e ->
  collect (map g (before ++ a :: after)) = Raise e.
Proof.
  induction 1 as [|b before (y & Hy) _ IH]; intros Ha; simpl.
  - rewrite Ha. reflexivity.
  - rewrite Hy. simpl. rewrite (IH Ha). reflexivity.
Qed.

(** *** One numeric field *)

Lemma within_iff_parsed lo hi s x :
  py_float s = Some x ->
  (within lo hi x <-> ~ below lo x /\ ~ above hi x).
Proof. intros H. apply within_iff. exact (py_float_not_nan _ H). Qed.

Lemma numeric_field_ok_iff form k lo hi name x :
  numeric_field form k lo hi name = Ok x <->
  (exists v, form_lookup form k = Some v /\
             py_float (re_sub_non_numeric v) = Some x) /\
  within lo hi x.
Proof.
  unfold numeric_field, form_get.
  destruct (form_lookup form k) as [v|]; simpl.
  - rewrite sanitize_numeric_input_ok_iff. simpl. split.
    + intros (Hp & Hb & Ha). split; [eauto|].
      apply (within_iff_parsed _ _ _ Hp). tauto.
    + intros ((v' & Hv & Hp) & Hw). injection Hv as <-.
      apply (within_iff_parsed _ _ _ Hp) in Hw. tauto.
  - split; [discriminate|]. intros ((v & Hv & _) & _). discriminate.
Qed.

Lemma check_field_ok_iff form f x :
  check_field form f = Ok x <-> parsed form f x /\ within (lo f) (hi f) x.
Proof. apply numeric_field_ok_iff. Qed.

Lemma parsed_unique form f x y : parsed form f x -> parsed form f y -> x = y.
Proof. intros (v & Hv & Hx) (v' & Hv' & Hy). congruence. Qed.

Lemma field_valid_check form f :
  field_valid form f <-> exists x, check_field form f = Ok x.
Proof.
  split; intros (x & H); exists x; apply check_field_ok_iff; assumption.
Qed.

Lemma invalid_not_valid form f :
  unparseable form f \/ out_of_range form f -> ~ field_valid form f.
Proof.
  intros [(v & Hv & Hn)|(x & Hx & Hw)] (y & Hy & Hwy).
  - destruct Hy as (v' & Hv' & Hy). congruence.
  - rewrite (parsed_unique Hx Hy) in Hw. contradiction.
Qed.

Lemma check_field_raise form f v e :
  form_lookup form (key f) = Some v ->
  check_field form f = Raise e ->
  exists msg, e = ValueError msg /\ mentions (display f) msg.
Proof.
  unfold check_field, numeric_field, form_get. intros ->. simpl.
  apply sanitize_numeric_input_raise.
Qed.

(** *** The data vector of [/predict] *)

Lemma predict_data_fields form :
  predict_data form = collect (map (check_field form) predict_fields).
Proof. reflexivity. Qed.

Lemma predict_data_ok_iff form data :
  predict_data form = Ok data <->
  Forall2 (fun f x => parsed form f x /\ within (lo f) (hi f) x) predict_fields data.
Proof.
  rewrite predict_data_fields, collect_map_ok.
  split; intros H; (eapply Forall2_impl; [|exact H]);
    intros f x; apply check_field_ok_iff.
Qed.

Lemma predict_data_ok_valid form data :
  predict_data form = Ok data -> Forall (field_valid form) predict_fields.
Proof.
  rewrite predict_data_ok_iff. generalize predict_fields.
  intros l H. induction H as [|f x l data Hf _ IH]; constructor; [|assumption].
  exists x; assumption.
Qed.

Lemma predict_data_valid_ok form :
  Forall (field_valid form) predict_fields -> exists data, predict_data form = Ok data.
Proof.
  rewrite predict_data_fields. generalize predict_fields.
  induction 1 as [|f l Hf _ (data & IH)]; simpl.
  - exists []; reflexivity.
  - apply field_valid_check in Hf. destruct Hf as (x & ->). simpl.
    rewrite IH. simpl. eauto.
Qed.

Lemma predict_data_first_invalid form before f after e :
  predict_fields = before ++ f :: after ->
  Forall (field_valid form) before ->
  check_field form f = Raise e ->
  predict_data form = Raise e.
Proof.
  intros Hs Hb He. rewrite predict_data_fields, Hs.
  apply collect_map_raise; [|assumption].
  eapply Forall_impl; [|exact Hb]. intros g. apply field_valid_check.
Qed.

(** *** The view function of [/predict], case by case *)

Lemma predict_view_state form w :
  model (snd (predict_view form w)) = model w /\
  label_encoder (snd (predict_view form w)) = label_encoder w /\
  clock (snd (predict_view form w)) = clock w /\
  ticks (snd (predict_view form w)) = ticks w.
Proof. run_predict_view form w; auto. Qed.

Lemma predict_view_response form w1 w2 :
  model w1 = model w2 -> label_encoder w1 = label_encoder w2 ->
  fst (predict_view form w1) = fst (predict_view form w2).
Proof.
  intros Hm Hle. unfold predict_view. rewrite Hm, Hle. 
  destruct (model w2) as [m|]; [|reflexivity].
  destruct (label_encoder w2) as [le|]; [|reflexivity].
  unfold try_except, bind, lift, call_predict, call_inverse_transform, print, emit, ret.
  destruct (predict_data form) as [data|[msg|msg]]; try reflexivity.
  destruct (model_predict m data) as [y|[msg|msg]]; try reflexivity.
  destruct (inverse_transform le y) as [l|[msg|msg]]; reflexivity.
Qed.

Lemma predict_view_degraded form w :
  degraded w -> predict_view form w = (json_error models_not_loaded 500, w).
Proof.
  unfold degraded, predict_view. intros [-> | ->]; [reflexivity|].
  destruct (model w); reflexivity.
Qed.

(** The events of one run of the view function: the classifier receives only
    the validated data vector, and nothing when validation fails. *)
Lemma predict_view_trace form w :
  exists evs,
    trace (snd (predict_view form w)) = evs ++ trace w /\
    (forall xs, In (ModelPredict xs) evs -> predict_data form = Ok xs) /\
    ((forall data, predict_data form <> Ok data) -> inference_events evs = []) /\
    (degraded w -> evs = []).
Proof.
  unfold degraded.
  run_predict_view form w.
  1: eexists [_; _; _].
  2: eexists [_; _; _].
  3: eexists [_; _; _; _].
  4: eexists [_; _].
  5: eexists [_; _; _].
  6: eexists [_].
  7: eexists [_; _].
  8-9: exists [].
  all: (split; [reflexivity|]; split; [|split]).
  all: try (intros xs Hin; simpl in Hin;
            repeat match goal with
                   | H : _ \/ _ |- _ => destruct H
                   | H : False |- _ => elim H
                   | H : _ = ModelPredict _ |- _ => first [discriminate H | injection H as <-]
                   end; reflexivity).
  all: try (intros Hno; solve [elim (Hno _ eq_refl) | reflexivity]).
  all: try (intros [H|H]; discriminate H).
  all: try reflexivity.
Qed.

Lemma predict_view_error_status form w :
  (forall data, predict_data form <> Ok data) ->
  exists msg code, fst (predict_view form w) = json_error msg code /\
                   (code = 400 \/ code = 500).
Proof.
  intros Hno. run_predict_view form w;
    try (elim (Hno _ eq_refl)); eauto.
Qed.

(** *** Time stamps *)

Lemma digits_fixed_length d : forall n, List.length (digits_fixed d n) = d.
Proof.
  induction d as [|d IH]; intros n; cbn [digits_fixed]; [reflexivity|].
  rewrite length_app, IH. apply Nat.add_1_r.
Qed.

Lemma digits_fixed_digits d : forall n, Forall (fun c => is_digit c = true) (digits_fixed d n).
Proof.
  induction d as [|d IH]; intros n; cbn [digits_fixed]; [constructor|].
  apply Forall_app. split; [apply IH|].
  constructor; [|constructor].
  unfold is_digit. apply andb_true_iff.
  assert (H : (n mod 10 < 10)%N) by (apply N.mod_lt; discriminate).
  clear IH. generalize dependent (n mod 10)%N. intros r H.
  split; apply N.leb_le; lia.
Qed.

Lemma strftime_compact t :
  strftime (lit "%Y%m%d_%H%M%S") t
  = (digits_fixed 4 (year t) ++ digits_fixed 2 (month t) ++ digits_fixed 2 (day t))
      ++ lit "_"
      ++ (digits_fixed 2 (hour t) ++ digits_fixed 2 (minute t) ++ digits_fixed 2 (second t)).
Proof.
  change (lit "%Y%m%d_%H%M%S")
    with [37; 89; 37; 109; 37; 100; 95; 37; 72; 37; 77; 37; 83]%N.
  cbn [strftime N.eqb Pos.eqb directive].
  rewrite <- !app_assoc. rewrite app_nil_r. reflexivity.
Qed.

Lemma strftime_compact_stamp t : is_stamp (strftime (lit "%Y%m%d_%H%M%S") t).
Proof.
  rewrite strftime_compact. eexists _, _. split; [reflexivity|].
  rewrite !length_app, !digits_fixed_length.
  repeat split; try reflexivity.
  rewrite !Forall_app. repeat split; apply digits_fixed_digits.
Qed.

(** *** The parameter loop of the report *)

Lemma elements_app p q : elements (p ++ q) = elements p ++ elements q.
Proof. apply flat_map_app. Qed.

Lemma pages_app p q : pages (p ++ q) = (pages p + pages q)%nat.
Proof. unfold pages. rewrite filter_app, length_app. reflexivity. Qed.

Lemma draw_params_elements params :
  forall p y,
    elements (fst (fold_left draw_param params (p, y)))
    = elements p ++ map (fun e => Text (param_line (fst e) (snd e))) params /\
    pages (fst (fold_left draw_param params (p, y))) = pages p.
Proof.
  induction params as [|[name value] params IH]; intros p y; simpl.
  - rewrite app_nil_r. auto.
  - destruct (IH (p ++ [drawString (Int 70) y (param_line name value)])
                 (num_sub y (Int 20))) as [He Hp].
    rewrite He, Hp, elements_app, pages_app, <- app_assoc.
    split; [reflexivity|apply Nat.add_0_r].
Qed.

Section ReportLemmas.

Variable upper : str -> str.
Variable A4 : float * float.

Lemma download_report_view_state form w :
  model (snd (download_report_view upper A4 form w)) = model w /\
  label_encoder (snd (download_report_view upper A4 form w)) = label_encoder w /\
  clock (snd (download_report_view upper A4 form w)) = clock w /\
  inference_events (trace (snd (download_report_view upper A4 form w)))
  = inference_events (trace w).
Proof. run_download_report_view form w; auto. Qed.

Lemma has_newline_app a b : has_newline (a ++ b) = has_newline a || has_newline b.
Proof. apply existsb_app. Qed.

Lemma has_newline_single_line s : has_newline s = false <-> single_line s.
Proof.
  unfold has_newline, single_line. induction s as [|c t IH]; simpl.
  - split; [constructor|reflexivity].
  - rewrite orb_false_iff, IH, orb_false_iff, !N.eqb_neq. split.
    + intros [H Ht]. constructor; assumption.
    + intros H. inversion H; auto.
Qed.

Lemma digits_single_line s :
  Forall (fun c => is_digit c = true) s -> has_newline s = false.
Proof.
  intros H. apply has_newline_single_line.
  eapply Forall_impl; [|exact H]. intros c Hc.
  unfold is_digit in Hc. apply andb_true_iff in Hc. destruct Hc as [Hc _].
  apply N.leb_le in Hc. split; lia.
Qed.

Lemma report_filename_newline crop t :
  has_newline (lit "crop_recommendation_" ++ crop ++ lit "_"
                 ++ strftime (lit "%Y%m%d_%H%M%S") t ++ lit ".pdf")
  = has_newline crop.
Proof.
  rewrite strftime_compact, !has_newline_app.
  rewrite !(fun d n => digits_single_line (digits_fixed_digits d n)).
  change (has_newline (lit "crop_recommendation_")) with false.
  change (has_newline (lit "_")) with false.
  change (has_newline (lit ".pdf")) with false.
  simpl. rewrite !orb_false_r. reflexivity.
Qed.

Lemma download_report_view_artifacts form w m le :
  download_report_view upper A4 form (with_artifacts m le w)
  = (fst (download_report_view upper A4 form w),
     with_artifacts m le (snd (download_report_view upper A4 form w))).
Proof.
  unfold with_artifacts, download_report_view, try_except, bind, lift, now,
    read_clock, ret, form_get, send_file.
  cbn [clock ticks trace model label_encoder].
  destruct (form_lookup form (lit "crop")) as [c|]; [|reflexivity].
  destruct (report_params form) as [params|[msg|msg]]; try reflexivity.
  match goal with
  | |- context [fold_left draw_param params ?st] =>
      destruct (fold_left draw_param params st) as [p y]
  end.
  rewrite !report_filename_newline.
  destruct (has_newline (sanitize_input (PyStr c) 100)); reflexivity.
Qed.

(** What the view function does once the crop is read and the parameter
    dictionary is built: the document is drawn, the clock read twice, and
    [send_file] accepts the file name or refuses it. *)
Lemma download_report_view_drawn form w c params :
  form_lookup form (lit "crop") = Some c ->
  report_params form = Ok params ->
  exists ops w',
    ticks w' = S (S (ticks w)) /\
    trace w'
    = [ClockRead (clock w (S (ticks w))); ClockRead (clock w (ticks w))] ++ trace w /\
    elements ops
    = [ Text report_title;
        Text (lit "Generated on: "
                ++ strftime (lit "%Y-%m-%d %H:%M:%S") (clock w (ticks w)));
        Divider;
        Text ([128202%N] ++ lit " Input Parameters:") ]
        ++ map (fun e => Text (param_line (fst e) (snd e))) params
        ++ [ Text ([127919%N] ++ lit " Recommendation Result:");
             Text (lit "Recommended Crop: " ++ upper (slice_to 100 (strip c)));
             Text report_footer_1;
             Text report_footer_2 ] /\
    pages ops = 1%nat /\
    (has_newline (slice_to 100 (strip c)) = false ->
     download_report_view upper A4 form w
     = ({| status := 200;
           payload := Attachment ops
             (lit "crop_recommendation_" ++ slice_to 100 (strip c) ++ lit "_"
                ++ strftime (lit "%Y%m%d_%H%M%S") (clock w (S (ticks w)))
                ++ lit ".pdf")
             (lit "application/pdf") |}, w')) /\
    (has_newline (slice_to 100 (strip c)) = true ->
     download_report_view upper A4 form w
     = (json_error header_newline_error 400, w')).
Proof.
  intros Hc Hp.
  unfold download_report_view, try_except, bind, lift, now, read_clock, ret,
    form_get, send_file.
  rewrite Hc, Hp.
  match goal with
  | |- context [fold_left draw_param params ?st] =>
      pose proof (draw_params_elements params (fst st) (snd st)) as [He Hn];
      change (fst st, snd st) with st in He, Hn;
      destruct (fold_left draw_param params st) as [p y]
  end.
  cbn [fst snd] in He, Hn.
  cbn [clock ticks trace model label_encoder sanitize_input].
  rewrite report_filename_newline.
  eexists _, _. split; [|split; [|split; [|split; [|split]]]].
  5: (intros E; rewrite E; reflexivity).
  5: (intros E; rewrite E; reflexivity).
  - reflexivity.
  - reflexivity.
  - rewrite !elements_app, He, <- !app_assoc. reflexivity.
  - rewrite !pages_app, Hn. reflexivity.
Qed.

Lemma download_report_view_success form w c params :
  form_lookup form (lit "crop") = Some c ->
  report_params form = Ok params ->
  single_line (slice_to 100 (strip c)) ->
  exists ops w',
    download_report_view upper A4 form w
    = ({| status := 200;
          payload := Attachment ops
            (lit "crop_recommendation_" ++ slice_to 100 (strip c) ++ lit "_"
               ++ strftime (lit "%Y%m%d_%H%M%S") (clock w (S (ticks w)))
               ++ lit ".pdf")
            (lit "application/pdf") |}, w') /\
    elements ops
    = [ Text report_title;
        Text (lit "Generated on: "
                ++ strftime (lit "%Y-%m-%d %H:%M:%S") (clock w (ticks w)));
        Divider;
        Text ([128202%N] ++ lit " Input Parameters:") ]
        ++ map (fun e => Text (param_line (fst e) (snd e))) params
        ++ [ Text ([127919%N] ++ lit " Recommendation Result:");
             Text (lit "Recommended Crop: " ++ upper (slice_to 100 (strip c)));
             Text report_footer_1;
             Text report_footer_2 ] /\
    pages ops = 1%nat.
Proof.
  intros Hc Hp Hl. apply has_newline_single_line in Hl.
  destruct (download_report_view_drawn form w Hc Hp)
    as (ops & w' & _ & _ & He & Hn & Hok & _).
  exists ops, w'. split; [apply Hok; assumption|]. split; assumption.
Qed.

End ReportLemmas.

(** *** The decorated routes *)

Lemma validate_required_fields_cases required view form w :
  (exists field, first_missing form required field /\
     validate_required_fields required view form w
     = (json_error (lit "Missing required field: " ++ field) 400, w))
  \/ (all_present form required /\
      validate_required_fields required view form w = view form w).
Proof.
  destruct (first_missing_or_all_present form required) as [(field & H)|H].
  - left. exists field. split; [assumption|].
    apply validate_required_fields_missing; assumption.
  - right. split; [assumption|].
    apply validate_required_fields_present; assumption.
Qed.

Lemma predict_state form w :
  model (snd (predict form w)) = model w /\
  label_encoder (snd (predict form w)) = label_encoder w.
Proof.
  unfold predict.
  destruct (validate_required_fields_cases predict_required predict_view form w)
    as [(field & _ & ->)|(_ & ->)]; [auto|].
  pose proof (predict_view_state form w). tauto.
Qed.

Lemma predict_response form w1 w2 :
  model w1 = model w2 -> label_encoder w1 = label_encoder w2 ->
  fst (predict form w1) = fst (predict form w2).
Proof.
  intros Hm Hle. unfold predict.
  destruct (first_missing_or_all_present form predict_required) as [(field & H)|H].
  - rewrite !(validate_required_fields_missing _ _ H). reflexivity.
  - rewrite !(validate_required_fields_present _ _ H).
    apply predict_view_response; assumption.
Qed.

Lemma predict_degraded form w :
  all_present form predict_required -> degraded w ->
  predict form w = (json_error models_not_loaded 500, w).
Proof.
  intros Hp Hd. unfold predict.
  rewrite (validate_required_fields_present _ _ Hp).
  apply predict_view_degraded; assumption.
Qed.

Lemma predict_validation_error form w msg :
  all_present form predict_required -> ~ degraded w ->
  predict_data form = Raise (ValueError msg) ->
  fst (predict form w) = json_error msg 400 /\
  inference_events (trace (snd (predict form w))) = inference_events (trace w).
Proof.
  intros Hp Hd Hdata. unfold predict.
  rewrite (validate_required_fields_present _ _ Hp).
  unfold degraded in Hd.
  run_predict_view form w; try congruence; try tauto.
  injection Hdata as <-. auto.
Qed.

Lemma predict_inference form w data :
  all_present form predict_required -> ~ degraded w ->
  predict_data form = Ok data ->
  In (ModelPredict data) (trace (snd (predict form w))).
Proof.
  intros Hp Hd Hdata. unfold predict.
  rewrite (validate_required_fields_present _ _ Hp).
  unfold degraded in Hd.
  run_predict_view form w; try congruence; try tauto;
    injection Hdata as <-; simpl; tauto.
Qed.

Lemma predict_label form w m le data y l :
  all_present form predict_required ->
  model w = Some m -> label_encoder w = Some le ->
  predict_data form = Ok data ->
  model_predict m data = Ok y -> inverse_transform le y = Ok l ->
  crop_label (fst (predict form w)) = Some l /\ status (fst (predict form w)) = 200.
Proof.
  intros Hp Hm Hle Hdata Hy Hl. unfold predict.
  rewrite (validate_required_fields_present _ _ Hp).
  unfold predict_view, try_except, bind, lift, call_predict,
    call_inverse_transform, print, emit, ret.
  rewrite Hm, Hle, Hdata, Hy, Hl. split; reflexivity.
Qed.

(** Claim C1. In every [/predict] request, each data vector handed to the
    classifier has seven values, each within the declared inclusive bounds of
    its field (N, P, K in [0,200], temperature in [-50,100], humidity in
    [0,100], pH in [0,14], rainfall in [0,1000]). If some field is
    unparseable or out of range, the classifier is not called at all and the
    response is an error (400 or 500). *)
Theorem predict_classifier_inputs_within_bounds (form : Form) (w : World) :
  exists evs,
    trace (snd (predict form w)) = evs ++ trace w /\
    (forall xs, In (ModelPredict xs) evs ->
       Forall2 (fun f x => within (lo f) (hi f) x) predict_fields xs) /\
    ((exists f, In f predict_fields /\ (unparseable form f \/ out_of_range form f)) ->
       (forall xs, ~ In (ModelPredict xs) evs) /\
       exists msg code, fst (predict form w) = json_error msg code /\
                        (code = 400 \/ code = 500)).
Proof.
  unfold predict.
  destruct (validate_required_fields_cases predict_required predict_view form w)
    as [(field & _ & ->)|(_ & ->)].
  - exists []. split; [reflexivity|]. split; [intros xs []|].
    intros _. split; [intros xs []|].
    eexists _, _. split; [reflexivity|left; reflexivity].
  - destruct (predict_view_trace form w) as (evs & Htr & Hin & Hno & _).
    exists evs. split; [assumption|]. split.
    + intros xs Hxs. apply Hin in Hxs. apply predict_data_ok_iff in Hxs.
      eapply Forall2_impl; [|exact Hxs]. intros f x [_ H]; exact H.
    + intros (f & Hf & Hbad).
      assert (Hdata : forall data, predict_data form <> Ok data).
      { intros data Hd. apply predict_data_ok_valid in Hd.
        rewrite Forall_forall in Hd.
        exact (invalid_not_valid Hbad (Hd f Hf)). }
      split.
      * intros xs Hxs.
        assert (Hf' : In (ModelPredict xs) (inference_events evs)).
        { apply filter_In. split; [assumption|reflexivity]. }
        rewrite (Hno Hdata) in Hf'. exact Hf'.
      * apply predict_view_error_status; assumption.
Qed.

Lemma predict_fields_keys : map key predict_fields = predict_required.
Proof. reflexivity. Qed.

Lemma predict_fields_ordered f : In f predict_fields -> lo f <= hi f.
Proof.
  intros H. simpl in H.
  repeat (destruct H as [<-|H]; [simpl; lia|]). elim H.
Qed.

Lemma present_field_lookup form f :
  all_present form predict_required -> In f predict_fields ->
  exists v, form_lookup form (key f) = Some v.
Proof.
  intros Hp Hf. apply present_lookup.
  unfold all_present in Hp. rewrite Forall_forall in Hp. apply Hp.
  rewrite <- predict_fields_keys. apply in_map; assumption.
Qed.

Lemma equals_within lo hi x :
  lo <= hi -> equals lo x \/ equals hi x -> within lo hi x.
Proof.
  intros Hle [(q & Hv & Hq)|(q & Hv & Hq)]; exists q; (split; [assumption|]);
    rewrite Hq; split; try apply Qle_refl; rewrite <- Zle_Qle; assumption.
Qed.

Lemma invalid_field_raises form f :
  all_present form predict_required -> In f predict_fields ->
  ~ field_valid form f ->
  exists msg, check_field form f = Raise (ValueError msg) /\ mentions (display f) msg.
Proof.
  intros Hp Hf Hbad.
  destruct (present_field_lookup Hp Hf) as (v & Hv).
  destruct (check_field form f) as [y|e] eqn:Hc.
  - elim Hbad. apply field_valid_check. eauto.
  - destruct (check_field_raise _ _ Hv Hc) as (msg & -> & Hm). eauto.
Qed.

(** Claim C3, as amended. When both artifacts are loaded, the seven fields
    are present and every field before [f] in the handler's order is valid, a
    value of [f] that parses strictly below its minimum or strictly above its
    maximum yields a 400 response whose message names [f]; a value equal to
    the minimum or to the maximum passes the validation of [f]. *)
Theorem predict_range_check (form : Form) (w : World)
    (before : list field_spec) (f : field_spec) (after : list field_spec) (x : float) :
  predict_fields = before ++ f :: after ->
  ~ degraded w ->
  all_present form predict_required ->
  Forall (field_valid form) before ->
  parsed form f x ->
  ((below (lo f) x \/ above (hi f) x) ->
     exists msg, fst (predict form w) = json_error msg 400 /\
                 mentions (display f) msg) /\
  ((equals (lo f) x \/ equals (hi f) x) -> check_field form f = Ok x).
Proof.
  intros Hs Hd Hp Hb Hx.
  assert (Hf : In f predict_fields) by (rewrite Hs; apply in_elt).
  split.
  - intros Hbad.
    assert (Hnv : ~ field_valid form f).
    { intros (y & Hy & Hw). rewrite (parsed_unique Hy Hx) in Hw.
      destruct Hx as (v & _ & Hpx).
      apply (within_iff_parsed _ _ _ Hpx) in Hw. tauto. }
    destruct (invalid_field_raises Hp Hf Hnv) as (msg & Hc & Hm).
    exists msg. split; [|assumption].
    apply (predict_validation_error Hp Hd).
    eapply predict_data_first_invalid; eassumption.
  - intros Heq. apply check_field_ok_iff. split; [assumption|].
    apply equals_within; [apply predict_fields_ordered|]; assumption.
Qed.

(** Claim C5, as amended. [/predict] runs its stages in this order: the
    presence check (400 naming the first missing field), then the check that
    both artifacts are loaded (500), then the sanitizer (400 with the message
    of the first invalid field, and no inference), then inference.
    Consequently a request whose seven fields are present and of which one
    value is invalid gets the 400 validation message when the artifacts are
    loaded, and the 500 models-not-loaded message when they are not. *)
Theorem predict_stage_order (form : Form) (w : World) :
  (forall field, first_missing form predict_required field ->
     predict form w
     = (json_error (lit "Missing required field: " ++ field) 400, w)) /\
  (all_present form predict_required -> degraded w ->
     predict form w = (json_error models_not_loaded 500, w)) /\
  (all_present form predict_required -> ~ degraded w ->
     forall before f after,
       predict_fields = before ++ f :: after ->
       Forall (field_valid form) before -> ~ field_valid form f ->
       exists msg,
         check_field form f = Raise (ValueError msg) /\
         fst (predict form w) = json_error msg 400 /\
         inference_events (trace (snd (predict form w)))
         = inference_events (trace w)) /\
  (all_present form predict_required -> ~ degraded w ->
     Forall (field_valid form) predict_fields ->
     exists data,
       predict_data form = Ok data /\
       In (ModelPredict data) (trace (snd (predict form w)))).
Proof.
  split; [|split; [|split]].
  - intros field H. apply validate_required_fields_missing; assumption.
  - apply predict_degraded.
  - intros Hp Hd before f after Hs Hb Hbad.
    assert (Hf : In f predict_fields) by (rewrite Hs; apply in_elt).
    destruct (invalid_field_raises Hp Hf Hbad) as (msg & Hc & _).
    exists msg. split; [assumption|].
    apply (predict_validation_error Hp Hd).
    eapply predict_data_first_invalid; eassumption.
  - intros Hp Hd Hv.
    destruct (predict_data_valid_ok Hv) as (data & Hdata).
    exists data. split; [assumption|].
    apply predict_inference; assumption.
Qed.

Section RouteProperties.

Variable upper : str -> str.
Variable A4 : float * float.

Lemma download_report_state form w :
  model (snd (download_report upper A4 form w)) = model w /\
  label_encoder (snd (download_report upper A4 form w)) = label_encoder w /\
  inference_events (trace (snd (download_report upper A4 form w)))
  = inference_events (trace w).
Proof.
  unfold download_report.
  destruct (validate_required_fields_cases report_required
              (download_report_view upper A4) form w)
    as [(field & _ & ->)|(_ & ->)]; [auto|].
  pose proof (download_report_view_state upper A4 form w). tauto.
Qed.

Lemma dispatch_state r w :
  model (snd (dispatch upper A4 r w)) = model w /\
  label_encoder (snd (dispatch upper A4 r w)) = label_encoder w.
Proof.
  destruct r as [|form|form|]; simpl.
  - auto.
  - apply predict_state.
  - pose proof (download_report_state form w). tauto.
  - auto.
Qed.

Lemma serve_state rs :
  forall w,
    model (snd (serve upper A4 rs w)) = model w /\
    label_encoder (snd (serve upper A4 rs w)) = label_encoder w.
Proof.
  induction rs as [|r rs IH]; intros w; simpl; [auto|].
  pose proof (dispatch_state r w) as [Hm Hle].
  destruct (dispatch upper A4 r w) as [resp w1]. simpl in Hm, Hle.
  specialize (IH w1). destruct (serve upper A4 rs w1) as [resps w2].
  simpl in *. split; [rewrite <- Hm|rewrite <- Hle]; tauto.
Qed.

(** Claim C4. When a required field of [/predict] or of [/download_report]
    is absent or holds only whitespace, the response is the 400 that names the
    first such field in the declared order, hence never a 500; the view
    function is not run (whatever it is, the answer is the same), so no field
    is parsed, and the process state is unchanged. *)
Theorem missing_field_rejected (form : Form) (w : World) :
  ((exists k, In k predict_required /\ absent_or_blank form k) ->
     exists field,
       first_missing form predict_required field /\
       predict form w
       = (json_error (lit "Missing required field: " ++ field) 400, w) /\
       forall view,
         validate_required_fields predict_required view form w = predict form w) /\
  ((exists k, In k report_required /\ absent_or_blank form k) ->
     exists field,
       first_missing form report_required field /\
       download_report upper A4 form w
       = (json_error (lit "Missing required field: " ++ field) 400, w) /\
       forall view,
         validate_required_fields report_required view form w
         = download_report upper A4 form w).
Proof.
  split; intros H; apply first_missing_exists in H; destruct H as (field & H);
    exists field; (split; [assumption|]);
    unfold predict, download_report;
    rewrite (validate_required_fields_missing _ _ H);
    (split; [reflexivity|]); intros view;
    apply validate_required_fields_missing; assumption.
Qed.

(** Claim C7. Submitting the same form to [/predict] twice, with any
    requests served in between, gives the same response both times, hence the
    same crop label; for a valid vector on which the classifier and the
    decoder return, that label is the decoder's output. *)
Theorem predict_repeatable (form : Form) (rs : list request) (w : World) :
  let first := predict form w in
  let second := predict form (snd (serve upper A4 rs (snd first))) in
  fst second = fst first /\
  crop_label (fst second) = crop_label (fst first) /\
  (forall m le data y l,
     all_present form predict_required ->
     model w = Some m -> label_encoder w = Some le ->
     predict_data form = Ok data ->
     model_predict m data = Ok y -> inverse_transform le y = Ok l ->
     crop_label (fst first) = Some l).
Proof.
  cbv zeta.
  assert (H : fst (predict form (snd (serve upper A4 rs (snd (predict form w)))))
              = fst (predict form w)).
  { pose proof (predict_state form w) as [Hm Hle].
    pose proof (serve_state rs (snd (predict form w))) as [Hm' Hle'].
    apply predict_response; congruence. }
  split; [assumption|]. split; [rewrite H; reflexivity|].
  intros m le data y l Hp Hm Hle Hdata Hy Hl.
  exact (proj1 (predict_label _ Hp Hm Hle Hdata Hy Hl)).
Qed.

Lemma dispatch_degraded r w :
  degraded w ->
  inference_events (trace (snd (dispatch upper A4 r w))) = inference_events (trace w) /\
  match r with
  | PostPredict form =>
      all_present form predict_required ->
      fst (dispatch upper A4 r w) = json_error models_not_loaded 500
  | GetHealth =>
      status (fst (dispatch upper A4 r w)) = 200 /\
      exists t,
        payload (fst (dispatch upper A4 r w))
        = Json [ (lit "status", JStr (lit "healthy"));
                 (lit "models_loaded", JBool false);
                 (lit "timestamp", JStr (isoformat t)) ]
  | _ => True
  end.
Proof.
  intros Hd. destruct r as [|form|form|]; simpl.
  - auto.
  - split.
    + unfold predict.
      destruct (validate_required_fields_cases predict_required predict_view form w)
        as [(field & _ & ->)|(_ & ->)]; [reflexivity|].
      rewrite (predict_view_degraded _ Hd). reflexivity.
    + intros Hp. rewrite (predict_degraded Hp Hd). reflexivity.
  - split; [|exact I]. apply download_report_state.
  - split; [reflexivity|]. split; [reflexivity|].
    exists (clock w (ticks w)).
    destruct Hd as [-> | ->]; [reflexivity|].
    destruct (model w); reflexivity.
Qed.

(** Claim C6. When an artifact failed to load, then over any sequence of
    requests the process stays degraded, neither the classifier nor the
    decoder is ever called, every [/predict] request whose seven fields pass
    the presence check is answered 500 with the models-not-loaded message, and
    every [/health] request is answered 200 with a status string,
    [models_loaded] false and a timestamp. *)
Theorem degraded_process (rs : list request) (w : World) :
  degraded w ->
  degraded (snd (serve upper A4 rs w)) /\
  inference_events (trace (snd (serve upper A4 rs w))) = inference_events (trace w) /\
  Forall2
    (fun r resp =>
       match r with
       | PostPredict form =>
           all_present form predict_required ->
           resp = json_error models_not_loaded 500
       | GetHealth =>
           status resp = 200 /\
           exists t,
             payload resp
             = Json [ (lit "status", JStr (lit "healthy"));
                      (lit "models_loaded", JBool false);
                      (lit "timestamp", JStr (isoformat t)) ]
       | _ => True
       end)
    rs (fst (serve upper A4 rs w)).
Proof.
  revert w. induction rs as [|r rs IH]; intros w Hd; simpl.
  - repeat split; [assumption|constructor].
  - pose proof (dispatch_degraded r Hd) as [Hinf Hresp].
    pose proof (dispatch_state r w) as [Hm Hle].
    destruct (dispatch upper A4 r w) as [resp w1]. simpl in Hinf, Hresp, Hm, Hle.
    assert (Hd1 : degraded w1).
    { unfold degraded in *. rewrite Hm, Hle. assumption. }
    specialize (IH w1 Hd1). destruct (serve upper A4 rs w1) as [resps w2].
    simpl in *. destruct IH as (Hd2 & Hinf2 & Hall).
    split; [assumption|]. split; [congruence|].
    constructor; [|assumption].
    destruct r; auto.
Qed.

End RouteProperties.

(** *** The parameters of the report *)

Lemma numeric_field_renamed form k lo hi n1 n2 x :
  numeric_field form k lo hi n1 = Ok x -> numeric_field form k lo hi n2 = Ok x.
Proof. rewrite !numeric_field_ok_iff. auto. Qed.

Lemma report_params_valid form :
  Forall (field_valid form) predict_fields ->
  exists data,
    predict_data form = Ok data /\
    report_params form
    = Ok [ (lit "Nitrogen (N)", format_fixed 1 (item data 0) ++ lit " kg/ha");
           (lit "Phosphorus (P)", format_fixed 1 (item data 1) ++ lit " kg/ha");
           (lit "Potassium (K)", format_fixed 1 (item data 2) ++ lit " kg/ha");
           (lit "Temperature", format_fixed 1 (item data 3) ++ [176%N; 67%N]);
           (lit "Humidity", format_fixed 1 (item data 4) ++ lit "%");
           (lit "pH Level", format_fixed 2 (item data 5) ++ []);
           (lit "Rainfall", format_fixed 1 (item data 6) ++ lit " mm") ].
Proof.
  intros Hv. destruct (predict_data_valid_ok Hv) as (data & Hdata).
  exists data. split; [assumption|].
  unfold predict_data in Hdata. cbn [collect] in Hdata.
  repeat match type of Hdata with
         | context [rbind (numeric_field ?f ?k ?a ?b ?n) _] =>
             let E := fresh "E" in
             destruct (numeric_field f k a b n) eqn:E;
             [cbn [rbind] in Hdata|discriminate Hdata]
         end.
  injection Hdata as <-.
  unfold report_params, report_param, rmap.
  repeat (erewrite numeric_field_renamed by eassumption).
  reflexivity.
Qed.

Section ReportProperties.

Variable upper : str -> str.
Variable A4 : float * float.

(** Claim C8, as amended. For a [/download_report] request whose eight
    fields are present, whose seven numeric values are valid and whose crop
    label (the crop field trimmed and cut to 100 characters) holds no
    carriage return or line feed, the response is a 200 attachment whose
    document has one page and shows, in this order: the title, the generation
    timestamp, a divider, the heading of the parameter list, one line per
    entry of the parameter dictionary in its insertion order, the heading of
    the result, the recommendation line with the upper-cased crop label, and
    the two footer lines. The file name is
    [crop_recommendation_<label>_<YYYYMMDD_HHMMSS>.pdf], built from that
    label and a reading of the clock. *)
Theorem download_report_document (form : Form) (w : World) (c : str) :
  all_present form report_required ->
  Forall (field_valid form) predict_fields ->
  form_lookup form (lit "crop") = Some c ->
  single_line (slice_to 100 (strip c)) ->
  exists params ops w',
    report_params form = Ok params /\
    map fst params = report_names /\
    download_report upper A4 form w
    = ({| status := 200;
          payload := Attachment ops
            (lit "crop_recommendation_" ++ slice_to 100 (strip c) ++ lit "_"
               ++ strftime (lit "%Y%m%d_%H%M%S") (clock w (S (ticks w)))
               ++ lit ".pdf")
            (lit "application/pdf") |}, w') /\
    is_stamp (strftime (lit "%Y%m%d_%H%M%S") (clock w (S (ticks w)))) /\
    elements ops
    = [ Text report_title;
        Text (lit "Generated on: "
                ++ strftime (lit "%Y-%m-%d %H:%M:%S") (clock w (ticks w)));
        Divider;
        Text ([128202%N] ++ lit " Input Parameters:") ]
        ++ map (fun e => Text (param_line (fst e) (snd e))) params
        ++ [ Text ([127919%N] ++ lit " Recommendation Result:");
             Text (lit "Recommended Crop: " ++ upper (slice_to 100 (strip c)));
             Text report_footer_1;
             Text report_footer_2 ] /\
    pages ops = 1%nat.
Proof.
  intros Hp Hv Hc Hl.
  destruct (report_params_valid Hv) as (data & _ & Hparams).
  destruct (download_report_view_success upper A4 form w Hc Hparams Hl)
    as (ops & w' & Hrun & Hel & Hpg).
  eexists _, ops, w'.
  split; [exact Hparams|]. split; [reflexivity|].
  split.
  - unfold download_report.
    rewrite (validate_required_fields_present _ _ Hp). exact Hrun.
  - split; [apply strftime_compact_stamp|]. split; assumption.
Qed.

Lemma download_report_artifacts form w m le :
  fst (download_report upper A4 form (with_artifacts m le w))
  = fst (download_report upper A4 form w).
Proof.
  unfold download_report.
  destruct (first_missing_or_all_present form report_required) as [(field & H)|H].
  - rewrite !(validate_required_fields_missing _ _ H). reflexivity.
  - rewrite !(validate_required_fields_present _ _ H).
    rewrite download_report_view_artifacts. reflexivity.
Qed.

Lemma download_report_attachment form w ops filename mimetype :
  fst (download_report upper A4 form w)
  = {| status := 200; payload := Attachment ops filename mimetype |} ->
  exists c params,
    form_lookup form (lit "crop") = Some c /\
    report_params form = Ok params /\
    fst (download_report_view upper A4 form w)
    = {| status := 200; payload := Attachment ops filename mimetype |}.
Proof.
  unfold download_report.
  destruct (validate_required_fields_cases report_required
              (download_report_view upper A4) form w)
    as [(field & _ & ->)|(_ & ->)]; [discriminate|].
  intros H.
  destruct (form_lookup form (lit "crop")) as [c|] eqn:Hc.
  - destruct (report_params form) as [params|[msg|msg]] eqn:Hp.
    + eauto.
    + revert H. unfold download_report_view, try_except, bind, lift, form_get.
      rewrite Hc, Hp. discriminate.
    + revert H. unfold download_report_view, try_except, bind, lift, form_get.
      rewrite Hc, Hp. discriminate.
  - revert H. unfold download_report_view, try_except, bind, lift, form_get.
    rewrite Hc. discriminate.
Qed.

(** Claim C9, as amended. [/download_report] calls neither the classifier
    nor the label decoder and its response does not depend on the loaded
    artifacts. Whenever it produces a report, the label in the file name is
    exactly the submitted crop field, trimmed and cut to at most 100
    characters, and the recommendation line shows that label upper-cased. *)
Theorem download_report_echoes_crop (form : Form) (w : World) :
  (forall m le,
     fst (download_report upper A4 form (with_artifacts m le w))
     = fst (download_report upper A4 form w)) /\
  inference_events (trace (snd (download_report upper A4 form w)))
  = inference_events (trace w) /\
  (forall ops filename mimetype,
     fst (download_report upper A4 form w)
     = {| status := 200; payload := Attachment ops filename mimetype |} ->
     exists c,
       form_lookup form (lit "crop") = Some c /\
       let crop := slice_to 100 (strip c) in
       sanitize_input (PyStr c) 100 = crop /\
       (List.length crop <= 100)%nat /\
       In (Text (lit "Recommended Crop: " ++ upper crop)) (elements ops) /\
       filename
       = lit "crop_recommendation_" ++ crop ++ lit "_"
           ++ strftime (lit "%Y%m%d_%H%M%S") (clock w (S (ticks w)))
           ++ lit ".pdf").
Proof.
  split; [|split].
  - intros m le. apply download_report_artifacts.
  - apply download_report_state.
  - intros ops filename mimetype H.
    destruct (download_report_attachment _ _ H) as (c & params & Hc & Hp & Hview).
    destruct (download_report_view_drawn upper A4 form w Hc Hp)
      as (ops' & w' & _ & _ & Hel & _ & Hok & Hno).
    destruct (has_newline (slice_to 100 (strip c))) eqn:Hnl;
      [rewrite (Hno eq_refl) in Hview; discriminate Hview|].
    rewrite (Hok eq_refl) in Hview. simpl in Hview.
    injection Hview as <- <- _.
    exists c. split; [assumption|]. cbv zeta.
    split; [reflexivity|]. split; [apply firstn_le_length|].
    split; [|reflexivity].
    rewrite Hel. apply in_or_app. right. apply in_or_app. right.
    simpl. tauto.
Qed.

End ReportProperties.

(** *** Letters among the digits *)


Lemma digit_not_minus c : is_digit c = true -> (c =? 45)%N = false.
Proof.
  unfold is_digit. intros H. apply andb_true_iff in H. destruct H as [H _].
  apply N.leb_le in H. apply N.eqb_neq. lia.
Qed.











(** *** Concrete requests *)

Lemma mentions_In name msg c : mentions name msg -> In c name -> In c msg.
Proof.
  intros (pre & post & ->) H. apply in_or_app. right. apply in_or_app. left. exact H.
Qed.

(** Against claim C3 as stated: nitrogen submitted as -1 is below its
    minimum, yet with no artifacts loaded the response is the 500
    models-not-loaded error; and with the artifacts loaded, phosphorus
    submitted as 500 next to that nitrogen yields a 400 whose message does not
    name phosphorus. *)
Lemma predict_out_of_range_not_400 :
  parsed form_low_N field_N minus_one /\
  below (lo field_N) minus_one /\
  all_present form_low_N predict_required /\
  predict form_low_N degraded_world
  = (json_error models_not_loaded 500, degraded_world) /\
  parsed form_low_N_high_P field_P five_hundred /\
  above (hi field_P) five_hundred /\
  exists msg,
    fst (predict form_low_N_high_P sample_world) = json_error msg 400 /\
    ~ mentions (display field_P) msg.
Proof.
  split; [exists (lit "-1"); split; vm_compute; reflexivity|].
  split; [vm_compute; reflexivity|].
  split; [apply all_present_check; vm_compute; reflexivity|].
  split; [vm_compute; reflexivity|].
  split; [exists (lit "500"); split; vm_compute; reflexivity|].
  split; [vm_compute; reflexivity|].
  eexists. split; [vm_compute; reflexivity|].
  intros H. apply (@mentions_In _ _ 104%N) in H.
  - vm_compute in H. repeat (destruct H as [H|H]; [discriminate H|]). exact H.
  - vm_compute. tauto.
Qed.

(** Against claim C5 as stated: the seven fields are present, nitrogen does
    not parse, no artifact is loaded, and the response is 500, not 400. *)
Lemma predict_models_checked_before_values :
  all_present form_bad_N predict_required /\
  unparseable form_bad_N field_N /\
  fst (predict form_bad_N degraded_world) = json_error models_not_loaded 500 /\
  status (fst (predict form_bad_N degraded_world)) <> 400.
Proof.
  split; [apply all_present_check; vm_compute; reflexivity|].
  split; [exists (lit "abc"); split; vm_compute; reflexivity|].
  split; [vm_compute; reflexivity|].
  vm_compute. discriminate.
Qed.

(** Against claim C9 as stated: for the crop field ["rice"] the report
    shows ["RICE"], not the submitted text. *)
Lemma report_shows_upper_cased_crop :
  form_lookup sample_form (lit "crop") = Some (lit "rice") /\
  exists ops filename,
    fst (download_report ascii_upper sample_A4 sample_form sample_world)
    = {| status := 200;
         payload := Attachment ops filename (lit "application/pdf") |} /\
    In (Text (lit "Recommended Crop: RICE")) (elements ops) /\
    ~ In (Text (lit "Recommended Crop: rice")) (elements ops).
Proof.
  split; [reflexivity|].
  eexists _, _. split; [vm_compute; reflexivity|]. split.
  - vm_compute. tauto.
  - intros H. vm_compute in H.
    repeat (destruct H as [H|H]; [discriminate H|]). exact H.
Qed.

(** Against claim C8 as stated: the eight fields are present and the seven
    numbers valid, but the crop name holds a line feed, the file name is
    refused as a header value and the response is 400, not a document. *)
Lemma report_refused_for_newline_crop :
  all_present form_newline_crop report_required /\
  Forall (field_valid form_newline_crop) predict_fields /\
  fst (download_report ascii_upper sample_A4 form_newline_crop sample_world)
  = json_error header_newline_error 400.
Proof.
  split; [apply all_present_check; vm_compute; reflexivity|].
  split; [|vm_compute; reflexivity].
  apply (@predict_data_ok_valid form_newline_crop
           (match predict_data form_newline_crop with Ok d => d | Raise _ => [] end)).
  vm_compute. reflexivity.
Qed.


(** The range check at work: nitrogen -1 with the artifacts loaded. *)
Lemma predict_range_check_witness :
  exists msg,
    fst (predict form_low_N sample_world) = json_error msg 400 /\
    mentions (display field_N) msg.
Proof.
  destruct (@predict_range_check form_low_N sample_world []
              field_N
              [field_P; field_K; field_temperature; field_humidity; field_ph;
               field_rainfall]
              minus_one) as [H _].
  - reflexivity.
  - unfold degraded. intros [H|H]; discriminate H.
  - apply all_present_check. vm_compute. reflexivity.
  - constructor.
  - exists (lit "-1"). split; vm_compute; reflexivity.
  - apply H. left. vm_compute. reflexivity.
Defined.

(** A degraded process serving five requests. *)
Lemma degraded_process_witness :
  degraded (snd (serve ascii_upper sample_A4 sample_requests degraded_world)) /\
  inference_events
    (trace (snd (serve ascii_upper sample_A4 sample_requests degraded_world)))
  = inference_events (trace degraded_world).
Proof.
  destruct (@degraded_process ascii_upper sample_A4 sample_requests degraded_world)
    as (H1 & H2 & _).
  - left. reflexivity.
  - split; assumption.
Defined.

(** The report for the sample request. *)
Lemma download_report_document_witness :
  exists ops filename w',
    download_report ascii_upper sample_A4 sample_form sample_world
    = ({| status := 200;
          payload := Attachment ops filename (lit "application/pdf") |}, w') /\
    pages ops = 1%nat.
Proof.
  destruct (@download_report_document ascii_upper sample_A4 sample_form sample_world
              (lit "rice"))
    as (params & ops & w' & _ & _ & Hrun & _ & _ & Hpages).
  - apply all_present_check. vm_compute. reflexivity.
  - apply (@predict_data_ok_valid sample_form
             (match predict_data sample_form with Ok d => d | Raise _ => [] end)).
    vm_compute. reflexivity.
  - reflexivity.
  - apply has_newline_single_line. vm_compute. reflexivity.
  - eexists ops, _, w'. split; [exact Hrun|exact Hpages].
Defined.

(* ================================================================== *)
(** * Further properties *)

(** *** The numerals [float] accepts *)

Lemma span_digits_spec s :
  s = fst (span_digits s) ++ snd (span_digits s) /\
  all_digits (fst (span_digits s)) /\
  (forall c t, snd (span_digits s) = c :: t -> is_digit c = false).
Proof.
  induction s as [|c s (IH1 & IH2 & IH3)]; simpl.
  - repeat split; [constructor|discriminate].
  - destruct (is_digit c) eqn:Hc.
    + destruct (span_digits s) as [ds rest]. simpl in *.
      repeat split; [congruence|constructor; assumption|assumption].
    + simpl. repeat split; [constructor|].
      intros c' t H; injection H as <- _. assumption.
Qed.

Lemma span_digits_app ds rest :
  all_digits ds ->
  (forall c t, rest = c :: t -> is_digit c = false) ->
  span_digits (ds ++ rest) = (ds, rest).
Proof.
  intros Hd Hr. induction Hd as [|c ds Hc _ IH]; simpl.
  - destruct rest as [|c t]; [reflexivity|].
    simpl. rewrite (Hr c t eq_refl). reflexivity.
  - rewrite Hc, IH. reflexivity.
Qed.

Lemma span_digits_no_digit s :
  (forall c, In c s -> is_digit c = false) -> span_digits s = ([], s).
Proof.
  intros H. destruct s as [|c t]; [reflexivity|].
  simpl. rewrite (H c (or_introl eq_refl)). reflexivity.
Qed.

Lemma point_not_digit : is_digit 46 = false.
Proof. reflexivity. Qed.

Lemma minus_not_digit : is_digit 45 = false.
Proof. reflexivity. Qed.

Lemma py_float_numeral s x :
  py_float s = Some x <->
  exists neg ip fp,
    numeral s neg ip fp /\
    x = float_of_decimal neg (digits_value (ip ++ fp)) (List.length fp).
Proof.
  split.
  - unfold py_float.
    assert (Hsign : exists neg body,
              (match s with
               | [] => (false, s)
               | c :: t => if (c =? 45)%N then (true, t) else (false, s)
               end) = (neg, body) /\ s = sign_text neg ++ body).
    { destruct s as [|c t]; [exists false, []; auto|].
      destruct (c =? 45)%N eqn:E.
      - apply N.eqb_eq in E. subst c. exists true, t; auto.
      - exists false, (c :: t); auto. }
    destruct Hsign as (neg & body & -> & Hs).
    destruct (span_digits_spec body) as (Hb & Hip & Hrest).
    destruct (span_digits body) as [ip rest]. simpl in Hb, Hip, Hrest.
    destruct rest as [|c t].
    + rewrite app_nil_r in Hb. subst body. rewrite app_nil_r.
      destruct ip as [|a l] eqn:E; [discriminate|]. rewrite <- E in *.
      intros H; injection H as <-.
      exists neg, ip, []. split; [|rewrite app_nil_r; reflexivity].
      rewrite Hs. constructor; [congruence|assumption].
    + destruct (c =? 46)%N eqn:E.
      * apply N.eqb_eq in E. subst c.
        destruct (span_digits_spec t) as (Ht & Hfp & _).
        destruct (span_digits t) as [fp rest']. simpl in Ht, Hfp.
        destruct rest' as [|c' t']; [|discriminate].
        destruct (ip ++ fp) as [|a l] eqn:E; [discriminate|].
        intros H; injection H as <-.
        exists neg, ip, fp. split; [|rewrite E; reflexivity].
        rewrite Hs, Hb, Ht, app_nil_r. constructor; [congruence|assumption|assumption].
      * destruct (ip ++ []); discriminate.
  - intros (neg & ip & fp & Hn & ->).
    unfold py_float.
    inversion Hn as [neg' ip' Hne Hip E1 E2 E3 E4|neg' ip' fp' Hne Hip Hfp E1 E2 E3 E4];
      subst.
    + assert (Hsp : span_digits ip = (ip, [])).
      { rewrite <- (app_nil_r ip) at 1.
        apply span_digits_app; [assumption|discriminate]. }
      destruct neg; cbn [sign_text app].
      * cbn [N.eqb Pos.eqb]. rewrite Hsp, app_nil_r.
        destruct ip; [congruence|reflexivity].
      * destruct ip as [|c t]; [congruence|].
        inversion Hip as [|? ? Hc Ht]; subst.
        rewrite (digit_not_minus _ Hc), Hsp, app_nil_r. reflexivity.
    + assert (Hsp : span_digits (ip ++ 46%N :: fp) = (ip, 46%N :: fp)).
      { apply span_digits_app; [assumption|].
        intros c t E; injection E as <- _. reflexivity. }
      assert (Hsf : span_digits fp = (fp, [])).
      { rewrite <- (app_nil_r fp) at 1.
        apply span_digits_app; [assumption|discriminate]. }
      destruct neg; cbn [sign_text app].
      * cbn [N.eqb Pos.eqb]. rewrite Hsp. cbn [N.eqb Pos.eqb]. rewrite Hsf.
        destruct (ip ++ fp); [congruence|reflexivity].
      * destruct ip as [|c t]; cbn [app] in *.
        -- cbn [N.eqb Pos.eqb]. rewrite Hsp. cbn [N.eqb Pos.eqb]. rewrite Hsf.
           destruct fp; [congruence|reflexivity].
        -- inversion Hip as [|? ? Hc Ht]; subst.
           rewrite (digit_not_minus _ Hc), Hsp. cbn [N.eqb Pos.eqb]. rewrite Hsf.
           reflexivity.
Qed.

Lemma py_float_no_digit s :
  (forall c, In c s -> is_digit c = false) -> py_float s = None.
Proof.
  intros H. destruct (py_float s) as [x|] eqn:E; [|reflexivity].
  apply py_float_numeral in E. destruct E as (neg & ip & fp & Hn & _).
  assert (Hd : exists c, In c s /\ is_digit c = true).
  { inversion Hn as [neg' ip' Hne Hip E1 E2 E3 E4|neg' ip' fp' Hne Hip Hfp E1 E2 E3 E4];
      subst.
    - destruct ip as [|c t]; [congruence|]. inversion Hip; subst.
      exists c. split; [|assumption].
      apply in_or_app. right. left; reflexivity.
    - destruct ip as [|c t].
      + destruct fp as [|c t]; [elim Hne; reflexivity|]. inversion Hfp; subst.
        exists c. split; [|assumption].
        apply in_or_app. right. simpl. right. left. reflexivity.
      + inversion Hip; subst. exists c. split; [|assumption].
        apply in_or_app. right. left; reflexivity. }
  destruct Hd as (c & Hin & Hc). rewrite (H c Hin) in Hc. discriminate.
Qed.

(** Property X1. A value that holds no digit is rejected, whatever the
    bounds: the sanitizer raises the [ValueError] of a failed conversion,
    whose message names the field and quotes what was left of the value. *)
Theorem sanitize_numeric_input_needs_digit
    (value : str) (min_val max_val : option Z) (field_name : str) :
  (forall c, In c value -> is_digit c = false) ->
  sanitize_numeric_input value min_val max_val field_name
  = Raise (ValueError (lit "Invalid " ++ field_name ++ lit ": "
             ++ lit "could not convert string to float: "
             ++ repr (re_sub_non_numeric value))).
Proof.
  intros H.
  pose proof (sanitize_numeric_input_cases value min_val max_val field_name) as Hc.
  cbv zeta in Hc. rewrite py_float_no_digit in Hc; [assumption|].
  intros c Hin. apply filter_In in Hin. apply H. tauto.
Qed.

(** Property X2. The two range errors are raised inside the [try] block and
    so are wrapped like a failed conversion: the message reads
    [Invalid F: F must be at least lo] (or [at most hi]), with the field name
    twice; the lower bound is checked first. *)
Theorem sanitize_numeric_input_range_messages
    (value : str) (lo hi : Z) (field_name : str) (x : float) :
  py_float (re_sub_non_numeric value) = Some x ->
  (below lo x ->
     sanitize_numeric_input value (Some lo) (Some hi) field_name
     = Raise (ValueError (lit "Invalid " ++ field_name ++ lit ": " ++ field_name
                ++ lit " must be at least " ++ str_of_Z lo))) /\
  (~ below lo x -> above hi x ->
     sanitize_numeric_input value (Some lo) (Some hi) field_name
     = Raise (ValueError (lit "Invalid " ++ field_name ++ lit ": " ++ field_name
                ++ lit " must be at most " ++ str_of_Z hi))).
Proof.
  intros Hp.
  pose proof (sanitize_numeric_input_cases value (Some lo) (Some hi) field_name) as Hc.
  cbv zeta in Hc. rewrite Hp in Hc. simpl in Hc.
  split.
  - intros Hb.
    destruct Hc as [(_ & n & E & ->)|[(Hnb & _)|(Hnb & _)]]; try tauto.
    injection E as <-. reflexivity.
  - intros Hnb Ha.
    destruct Hc as [(Hb & _)|[(_ & _ & n & E & ->)|(_ & Hna & _)]]; try tauto.
    injection E as <-. reflexivity.
Qed.

(** Property X3. A value the sanitizer returns is never NaN; when both
    bounds are given it is a finite number within them. *)
Theorem sanitize_numeric_input_result
    (value : str) (min_val max_val : option Z) (field_name : str) (x : float) :
  sanitize_numeric_input value min_val max_val field_name = Ok x ->
  x <> S754_nan /\
  (forall lo hi, min_val = Some lo -> max_val = Some hi -> within lo hi x).
Proof.
  intros H. apply sanitize_numeric_input_ok_iff in H. destruct H as (Hp & Hb & Ha).
  split; [exact (py_float_not_nan _ Hp)|].
  intros lo hi -> ->. apply (within_iff_parsed _ _ _ Hp). auto.
Qed.

(** Property X4. Without bounds the sanitizer accepts exactly the values
    whose numeric characters form a decimal numeral (an optional leading
    minus sign, digits, at most one point, at least one digit), and returns
    the float nearest to that numeral; a second point, or a minus sign
    anywhere but in front, makes it fail. *)
Theorem sanitize_numeric_input_accepts_numerals
    (value field_name : str) (x : float) :
  sanitize_numeric_input value None None field_name = Ok x <->
  exists neg ip fp,
    numeral (re_sub_non_numeric value) neg ip fp /\
    x = float_of_decimal neg (digits_value (ip ++ fp)) (List.length fp).
Proof.
  rewrite sanitize_numeric_input_ok_iff, <- py_float_numeral. simpl. tauto.
Qed.

(** *** Trimming *)

Lemma lstrip_split s :
  exists sp, s = sp ++ lstrip s /\ Forall (fun c => isspace c = true) sp.
Proof.
  induction s as [|c t (sp & Ht & Hsp)]; simpl.
  - exists []. split; [reflexivity|constructor].
  - destruct (isspace c) eqn:Hc.
    + exists (c :: sp). split; [simpl; congruence|constructor; assumption].
    + exists []. split; [reflexivity|constructor].
Qed.

Lemma lstrip_fixed s :
  (forall c t, s = c :: t -> isspace c = false) -> lstrip s = s.
Proof.
  intros H. destruct s as [|c t]; [reflexivity|].
  simpl. rewrite (H c t eq_refl). reflexivity.
Qed.

Lemma lstrip_lstrip s : lstrip (lstrip s) = lstrip s.
Proof. apply lstrip_fixed. intros c t. apply lstrip_head. Qed.

Lemma strip_prefix s : exists sp, lstrip s = strip s ++ sp.
Proof.
  unfold strip, rstrip.
  destruct (lstrip_split (rev (lstrip s))) as (sp & H & _).
  exists (rev sp).
  rewrite <- rev_app_distr, <- H, rev_involutive. reflexivity.
Qed.

Lemma strip_head s c t : strip s = c :: t -> isspace c = false.
Proof.
  intros H. destruct (strip_prefix s) as (sp & Hs).
  rewrite H in Hs. simpl in Hs. exact (lstrip_head _ Hs).
Qed.

Lemma strip_last s c t : rev (strip s) = c :: t -> isspace c = false.
Proof.
  unfold strip, rstrip. rewrite rev_involutive. apply lstrip_head.
Qed.

Lemma strip_strip s : strip (strip s) = strip s.
Proof.
  assert (H : lstrip (strip s) = strip s).
  { apply lstrip_fixed. intros c t. apply strip_head. }
  unfold strip at 1. rewrite H.
  unfold strip, rstrip. rewrite rev_involutive, lstrip_lstrip. reflexivity.
Qed.

(** Property X5. The display text [sanitize_input] returns is never longer
    than [max_length] and never starts with whitespace; for a [str] argument
    it is a prefix of the stripped text, and for anything else it is
    empty. *)
Theorem sanitize_input_bounds (text : pyvalue) (max_length : nat) :
  (List.length (sanitize_input text max_length) <= max_length)%nat /\
  (forall c t, sanitize_input text max_length = c :: t -> isspace c = false) /\
  (forall s, text = PyStr s ->
     exists cut, strip s = sanitize_input text max_length ++ cut) /\
  (text = PyOther -> sanitize_input text max_length = []).
Proof.
  destruct text as [s|]; simpl; unfold slice_to.
  - split; [apply firstn_le_length|]. split; [|split; [|discriminate]].
    + intros c t H. destruct (strip s) as [|c' t'] eqn:Hs.
      * rewrite firstn_nil in H. discriminate.
      * destruct max_length; [discriminate|]. simpl in H. injection H as <- _.
        exact (strip_head _ Hs).
    + intros s' E; injection E as <-.
      exists (skipn max_length (strip s)). symmetry. apply firstn_skipn.
  - split; [apply Nat.le_0_l|]. split; [discriminate|]. split; [discriminate|auto].
Qed.

(** Property X6. When the stripped text fits in [max_length], the result
    is the stripped text itself, it does not end with whitespace, and
    sanitizing it again changes nothing. *)
Theorem sanitize_input_fits (s : str) (max_length : nat) :
  (List.length (strip s) <= max_length)%nat ->
  sanitize_input (PyStr s) max_length = strip s /\
  (forall c t, rev (sanitize_input (PyStr s) max_length) = c :: t ->
     isspace c = false) /\
  sanitize_input (PyStr (sanitize_input (PyStr s) max_length)) max_length
  = sanitize_input (PyStr s) max_length.
Proof.
  intros H.
  assert (E : sanitize_input (PyStr s) max_length = strip s).
  { simpl. unfold slice_to. apply firstn_all2. assumption. }
  rewrite E. split; [reflexivity|]. split; [apply strip_last|].
  simpl. unfold slice_to. rewrite strip_strip. apply firstn_all2. assumption.
Qed.

(** *** The decorator *)

(** Property X7. When every required field is present and not blank, the
    decorated view function answers exactly as the view function does. *)
Theorem validate_required_fields_passes
    (required : list str) (view : Handler) (form : Form) (w : World) :
  all_present form required ->
  validate_required_fields required view form w = view form w.
Proof. apply validate_required_fields_present. Qed.

(** Property X8. Requiring two lists of fields one after the other is
    decorating twice: the outer decorator checks its fields first. *)
Theorem validate_required_fields_app
    (first second : list str) (view : Handler) (form : Form) (w : World) :
  validate_required_fields (first ++ second) view form w
  = validate_required_fields first (validate_required_fields second view) form w.
Proof.
  induction first as [|k rest IH]; simpl; [reflexivity|].
  destruct (field_missing form k); [reflexivity|exact IH].
Qed.

(** *** The outcomes of [/predict] *)

Ltac start_predict Hp Hm Hle Hdata :=
  unfold predict;
  rewrite (validate_required_fields_present _ _ Hp);
  apply predict_data_ok_iff in Hdata;
  unfold predict_view, try_except, bind, lift, call_predict,
    call_inverse_transform, print, emit, ret;
  rewrite Hm, Hle, Hdata.

(** Property X9. A request that passes validation, on which the classifier
    returns a class id and the decoder a label, is answered 200 with the
    result view: the label as [crop] and the seven values echoed with one
    decimal (pH with two). The classifier is called once with the validated
    vector, then the decoder with its class id, then the success line is
    printed. *)
Theorem predict_success
    (form : Form) (w : World) (m : Model) (le : LabelEncoder)
    (data : list float) (y : Z) (l : str) :
  all_present form predict_required ->
  model w = Some m -> label_encoder w = Some le ->
  Forall2 (fun f x => parsed form f x /\ within (lo f) (hi f) x) predict_fields data ->
  model_predict m data = Ok y ->
  inverse_transform le y = Ok l ->
  predict form w
  = ({| status := 200;
        payload := Template (lit "result.html")
                     [ (lit "crop", CStr l);
                       (lit "params", CDict (echoed_params data)) ] |},
     emit_event (Print ([9989%N] ++ lit " Prediction successful: " ++ l))
       (emit_event (LabelDecode y) (emit_event (ModelPredict data) w))).
Proof.
  intros Hp Hm Hle Hdata Hy Hl. start_predict Hp Hm Hle Hdata.
  rewrite Hy, Hl. reflexivity.
Qed.

(** Property X10. An exception of the classifier or of the decoder is
    caught by the handlers of [predict]: a [ValueError] is answered 400 with
    its own message, like a validation error; any other exception is answered
    500 with the fixed text, its message only printed and logged. When the
    classifier raises, the decoder is not called. *)
Theorem predict_inference_errors
    (form : Form) (w : World) (m : Model) (le : LabelEncoder) (data : list float) :
  all_present form predict_required ->
  model w = Some m -> label_encoder w = Some le ->
  Forall2 (fun f x => parsed form f x /\ within (lo f) (hi f) x) predict_fields data ->
  (forall msg, model_predict m data = Raise (ValueError msg) ->
     predict form w
     = (json_error msg 400,
        emit_event (Print ([10060%N] ++ lit " Validation error: " ++ msg))
          (emit_event (ModelPredict data) w))) /\
  (forall msg, model_predict m data = Raise (OtherError msg) ->
     predict form w
     = (json_error (lit "Prediction failed. Please try again.") 500,
        emit_event (LogError (lit "Prediction error: " ++ msg))
          (emit_event (Print ([10060%N] ++ lit " Prediction error: " ++ msg))
             (emit_event (ModelPredict data) w)))) /\
  (forall y msg, model_predict m data = Ok y ->
     inverse_transform le y = Raise (ValueError msg) ->
     predict form w
     = (json_error msg 400,
        emit_event (Print ([10060%N] ++ lit " Validation error: " ++ msg))
          (emit_event (LabelDecode y) (emit_event (ModelPredict data) w)))) /\
  (forall y msg, model_predict m data = Ok y ->
     inverse_transform le y = Raise (OtherError msg) ->
     predict form w
     = (json_error (lit "Prediction failed. Please try again.") 500,
        emit_event (LogError (lit "Prediction error: " ++ msg))
          (emit_event (Print ([10060%N] ++ lit " Prediction error: " ++ msg))
             (emit_event (LabelDecode y) (emit_event (ModelPredict data) w))))).
Proof.
  intros Hp Hm Hle Hdata. start_predict Hp Hm Hle Hdata.
  split; [|split; [|split]].
  - intros msg ->. reflexivity.
  - intros msg ->. reflexivity.
  - intros y msg -> ->. reflexivity.
  - intros y msg -> ->. reflexivity.
Qed.

Lemma validate_required_fields_agree required view form1 form2 w :
  (forall k, In k required -> form_lookup form1 k = form_lookup form2 k) ->
  view form1 w = view form2 w ->
  validate_required_fields required view form1 w
  = validate_required_fields required view form2 w.
Proof.
  intros Hk Hv. induction required as [|k rest IH]; simpl; [assumption|].
  assert (Hfm : field_missing form1 k = field_missing form2 k).
  { unfold field_missing. rewrite (Hk k (or_introl eq_refl)). reflexivity. }
  rewrite Hfm. destruct (field_missing form2 k); [reflexivity|].
  apply IH. intros k' Hin. apply Hk. right; assumption.
Qed.

(** Property X11. [/predict] reads nothing of the form but the first value
    of each of its seven fields: two forms that agree on those get the same
    response and leave the same state. *)
Theorem predict_reads_seven_fields (form1 form2 : Form) (w : World) :
  (forall k, In k predict_required -> form_lookup form1 k = form_lookup form2 k) ->
  predict form1 w = predict form2 w.
Proof.
  intros H. unfold predict. apply validate_required_fields_agree; [assumption|].
  assert (Hd : predict_data form1 = predict_data form2).
  { unfold predict_data, numeric_field, form_get.
    rewrite !H by (unfold predict_required; simpl; auto 10). reflexivity. }
  unfold predict_view. rewrite Hd. reflexivity.
Qed.

(** Property X12. One [/predict] request calls the classifier at most once
    and the decoder at most once, the decoder only after the classifier has
    returned and only with the class id it returned (the events are listed
    newest first). *)
Theorem predict_call_discipline (form : Form) (w : World) :
  exists evs,
    trace (snd (predict form w)) = evs ++ trace w /\
    (inference_events evs = [] \/
     exists m data,
       model w = Some m /\ predict_data form = Ok data /\
       ((inference_events evs = [ModelPredict data] /\
         exists e, model_predict m data = Raise e) \/
        exists y, model_predict m data = Ok y /\
                  inference_events evs = [LabelDecode y; ModelPredict data])).
Proof.
  unfold predict.
  destruct (validate_required_fields_cases predict_required predict_view form w)
    as [(field & _ & ->)|(_ & ->)].
  - exists []. split; [reflexivity|left; reflexivity].
  - run_predict_view form w.
    1: eexists [_; _; _].
    2: eexists [_; _; _].
    3: eexists [_; _; _; _].
    4: eexists [_; _].
    5: eexists [_; _; _].
    6: eexists [_].
    7: eexists [_; _].
    8-9: exists [].
    all: (split; [reflexivity|]).
    1-3: (right; exists m, data; split; [reflexivity|]; split; [reflexivity|];
          right; exists y; split; [assumption|reflexivity]).
    1-2: (right; exists m, data; split; [reflexivity|]; split; [reflexivity|];
          left; split; [reflexivity|eauto]).
    all: left; reflexivity.
Qed.

(** *** The numeric fields of the report *)

Lemma report_params_table form :
  report_params form
  = collect (map (fun p => rmap (snd p) (check_field form (fst p)))
               (combine report_fields report_formats)).
Proof. reflexivity. Qed.

Lemma collect_first_raise {A B C} (g : A -> result B) (fms : list (B -> C)) :
  forall before a after e,
    List.length fms = List.length (before ++ a :: after) ->
    Forall (fun b => exists y, g b = Ok y) before ->
    g a = Raise e ->
    collect (map (fun p => rmap (snd p) (g (fst p)))
               (combine (before ++ a :: after) fms)) = Raise e.
Proof.
  intros before. revert fms.
  induction before as [|b before IH]; intros fms a after e Hlen Hb Ha.
  - destruct fms as [|fm fms]; [discriminate|]. simpl. rewrite Ha. reflexivity.
  - destruct fms as [|fm fms]; [discriminate|].
    inversion Hb as [|? ? (y & Hy) Hb']; subst.
    simpl. rewrite Hy. simpl.
    rewrite (IH fms a after e); [reflexivity| |assumption|assumption].
    simpl in Hlen. congruence.
Qed.

Lemma report_fields_keys : map key report_fields = predict_required.
Proof. reflexivity. Qed.

Lemma invalid_present_field_raises form f v :
  form_lookup form (key f) = Some v ->
  ~ field_valid form f ->
  exists msg, check_field form f = Raise (ValueError msg) /\ mentions (display f) msg.
Proof.
  intros Hv Hbad.
  destruct (check_field form f) as [y|e] eqn:Hc.
  - elim Hbad. apply field_valid_check. eauto.
  - destruct (check_field_raise _ _ Hv Hc) as (msg & -> & Hm). eauto.
Qed.

(** Property X14. The two routes accept the same numeric values: the data
    vector of [/predict] is built exactly for the forms for which the
    parameter dictionary of [/download_report] is built. *)
Theorem predict_and_report_accept_alike (form : Form) :
  (exists data, predict_data form = Ok data) <->
  (exists params, report_params form = Ok params).
Proof.
  split.
  - intros (data & Hdata).
    apply predict_data_ok_valid, report_params_valid in Hdata.
    destruct Hdata as (d & _ & H). eauto.
  - intros (params & Hparams).
    unfold report_params, report_param, rmap in Hparams. cbn [collect] in Hparams.
    repeat match type of Hparams with
           | context [rbind (numeric_field ?f ?k ?a ?b ?n) _] =>
               let E := fresh "E" in
               destruct (numeric_field f k a b n) eqn:E;
               [cbn [rbind] in Hparams|discriminate Hparams]
           end.
    unfold predict_data.
    repeat (erewrite numeric_field_renamed by eassumption).
    eexists. reflexivity.
Qed.

Section ReportOutcomes.

Variable upper : str -> str.
Variable A4 : float * float.

(** Property X13. In [/download_report] the first numeric field that is
    not valid (the eight fields being present and those before it valid) ends
    the request with 400 and the sanitizer's message under the name the
    report gives that field; nothing is printed or logged and the clock is
    not read: the process state is unchanged. *)
Theorem download_report_validation_error
    (form : Form) (w : World)
    (before : list field_spec) (f : field_spec) (after : list field_spec) :
  report_fields = before ++ f :: after ->
  all_present form report_required ->
  Forall (field_valid form) before ->
  ~ field_valid form f ->
  exists msg,
    check_field form f = Raise (ValueError msg) /\
    mentions (display f) msg /\
    download_report upper A4 form w = (json_error msg 400, w).
Proof.
  intros Hs Hp Hb Hbad.
  assert (Hf : In (key f) report_required).
  { right. rewrite <- report_fields_keys, Hs. apply in_map, in_elt. }
  assert (Hv : exists v, form_lookup form (key f) = Some v).
  { apply present_lookup. unfold all_present in Hp.
    rewrite Forall_forall in Hp. apply Hp; assumption. }
  destruct Hv as (v & Hv).
  destruct (invalid_present_field_raises Hv Hbad) as (msg & Hc & Hm).
  exists msg. split; [assumption|]. split; [assumption|].
  assert (Hparams : report_params form = Raise (ValueError msg)).
  { rewrite report_params_table, Hs. apply collect_first_raise.
    - rewrite <- Hs. reflexivity.
    - eapply Forall_impl; [|exact Hb]. intros g. apply field_valid_check.
    - assumption. }
  assert (Hcrop : exists c, form_lookup form (lit "crop") = Some c).
  { apply present_lookup. inversion Hp; assumption. }
  destruct Hcrop as (c & Hcrop).
  unfold download_report.
  rewrite (validate_required_fields_present _ _ Hp).
  unfold download_report_view, try_except, bind, lift, form_get.
  rewrite Hcrop, Hparams. reflexivity.
Qed.

Lemma download_report_view_clock form w :
  (status (fst (download_report_view upper A4 form w)) = 200 ->
   ticks (snd (download_report_view upper A4 form w)) = S (S (ticks w)) /\
   trace (snd (download_report_view upper A4 form w))
   = [ClockRead (clock w (S (ticks w))); ClockRead (clock w (ticks w))] ++ trace w) /\
  (ticks w <= ticks (snd (download_report_view upper A4 form w)))%nat /\
  exists evs, trace (snd (download_report_view upper A4 form w)) = evs ++ trace w.
Proof.
  run_download_report_view form w.
  - split; [discriminate|]. split; [auto|]. eexists [_; _]. reflexivity.
  - split; [auto|]. split; [auto|]. eexists [_; _]. reflexivity.
  - split; [discriminate|]. split; [auto|]. exists []. reflexivity.
  - split; [discriminate|]. split; [auto|]. eexists [_]. reflexivity.
  - split; [discriminate|]. split; [auto|]. eexists [_]. reflexivity.
Qed.

(** Property X15. [/download_report] reads the clock exactly twice, first
    for the line in the document and then for the file name, whenever the
    eight fields are present and the seven numbers valid, whether it then
    answers 200 or the 400 that a carriage return or line feed in the crop
    label causes; every 200 comes with these two readings. When a field is
    missing or a number is not valid it answers without reading the clock and
    leaves the process state as it was. *)
Theorem download_report_clock (form : Form) (w : World) :
  (status (fst (download_report upper A4 form w)) = 200 ->
   ticks (snd (download_report upper A4 form w)) = S (S (ticks w)) /\
   trace (snd (download_report upper A4 form w))
   = [ClockRead (clock w (S (ticks w))); ClockRead (clock w (ticks w))] ++ trace w) /\
  (all_present form report_required ->
   (exists params, report_params form = Ok params) ->
   ticks (snd (download_report upper A4 form w)) = S (S (ticks w)) /\
   trace (snd (download_report upper A4 form w))
   = [ClockRead (clock w (S (ticks w))); ClockRead (clock w (ticks w))] ++ trace w /\
   (status (fst (download_report upper A4 form w)) = 200 \/
    fst (download_report upper A4 form w) = json_error header_newline_error 400)) /\
  ((exists field, first_missing form report_required field) \/
   (all_present form report_required /\
    exists msg, report_params form = Raise (ValueError msg)) ->
   snd (download_report upper A4 form w) = w).
Proof.
  split; [|split].
  - unfold download_report.
    destruct (validate_required_fields_cases report_required
                (download_report_view upper A4) form w)
      as [(field & _ & ->)|(_ & ->)]; [discriminate|].
    apply download_report_view_clock.
  - intros Hp (params & Hparams).
    assert (Hcrop : exists c, form_lookup form (lit "crop") = Some c).
    { apply present_lookup. inversion Hp; assumption. }
    destruct Hcrop as (c & Hc).
    unfold download_report. rewrite (validate_required_fields_present _ _ Hp).
    destruct (download_report_view_drawn upper A4 form w Hc Hparams)
      as (ops & w' & Ht & Htr & _ & _ & Hok & Hno).
    destruct (has_newline (slice_to 100 (strip c))).
    + rewrite (Hno eq_refl). simpl. auto.
    + rewrite (Hok eq_refl). simpl. auto.
  - intros [(field & H)|(Hp & msg & Hparams)]; unfold download_report.
    + rewrite (validate_required_fields_missing _ _ H). reflexivity.
    + assert (Hcrop : exists c, form_lookup form (lit "crop") = Some c).
      { apply present_lookup. inversion Hp; assumption. }
      destruct Hcrop as (c & Hc).
      rewrite (validate_required_fields_present _ _ Hp).
      unfold download_report_view, try_except, bind, lift, form_get.
      rewrite Hc, Hparams. reflexivity.
Qed.

(** Property X16. [/download_report] reads nothing of the form but the
    first value of [crop] and of each of the seven numeric fields. *)
Theorem download_report_reads_eight_fields (form1 form2 : Form) (w : World) :
  (forall k, In k report_required -> form_lookup form1 k = form_lookup form2 k) ->
  download_report upper A4 form1 w = download_report upper A4 form2 w.
Proof.
  intros H. unfold download_report.
  apply validate_required_fields_agree; [assumption|].
  assert (Hd : report_params form1 = report_params form2).
  { unfold report_params, report_param, numeric_field, form_get.
    rewrite !H by (unfold report_required, predict_required; simpl; auto 10).
    reflexivity. }
  unfold download_report_view, form_get.
  rewrite Hd, (H (lit "crop")) by (left; reflexivity). reflexivity.
Qed.

Lemma dispatch_invariants r w :
  clock (snd (dispatch upper A4 r w)) = clock w /\
  (ticks w <= ticks (snd (dispatch upper A4 r w)))%nat /\
  exists evs, trace (snd (dispatch upper A4 r w)) = evs ++ trace w.
Proof.
  destruct r as [|form|form|]; simpl.
  - split; [reflexivity|]. split; [auto|]. exists []. reflexivity.
  - unfold predict.
    destruct (validate_required_fields_cases predict_required predict_view form w)
      as [(field & _ & ->)|(_ & ->)].
    + split; [reflexivity|]. split; [auto|]. exists []. reflexivity.
    + pose proof (predict_view_state form w) as (_ & _ & Hc & Ht).
      destruct (predict_view_trace form w) as (evs & Htr & _).
      split; [assumption|]. split; [rewrite Ht; auto|]. eauto.
  - unfold download_report.
    destruct (validate_required_fields_cases report_required
                (download_report_view upper A4) form w)
      as [(field & _ & ->)|(_ & ->)].
    + split; [reflexivity|]. split; [auto|]. exists []. reflexivity.
    + pose proof (download_report_view_state upper A4 form w) as (_ & _ & Hc & _).
      pose proof (download_report_view_clock form w) as (_ & Ht & Htr).
      auto.
  - split; [reflexivity|]. split; [auto|]. eexists [_]. reflexivity.
Qed.

(** Property X17. Whatever requests are served, each gets one response, the
    two loaded artifacts and the clock stay what they were, the count of clock
    readings never decreases and the record of effects only grows. *)
Theorem serve_invariants (rs : list request) (w : World) :
  List.length (fst (serve upper A4 rs w)) = List.length rs /\
  model (snd (serve upper A4 rs w)) = model w /\
  label_encoder (snd (serve upper A4 rs w)) = label_encoder w /\
  clock (snd (serve upper A4 rs w)) = clock w /\
  (ticks w <= ticks (snd (serve upper A4 rs w)))%nat /\
  exists evs, trace (snd (serve upper A4 rs w)) = evs ++ trace w.
Proof.
  revert w. induction rs as [|r rs IH]; intros w; simpl.
  - repeat split; auto. exists []. reflexivity.
  - pose proof (dispatch_state upper A4 r w) as [Hm Hle].
    pose proof (dispatch_invariants r w) as (Hc & Ht & evs & Htr).
    destruct (dispatch upper A4 r w) as [resp w1]. simpl in Hm, Hle, Hc, Ht, Htr.
    specialize (IH w1). destruct (serve upper A4 rs w1) as [resps w2].
    simpl in *. destruct IH as (Hn & Hm2 & Hle2 & Hc2 & Ht2 & evs2 & Htr2).
    split; [congruence|]. split; [congruence|]. split; [congruence|].
    split; [congruence|]. split; [eapply Nat.le_trans; eassumption|].
    exists (evs2 ++ evs). rewrite Htr2, Htr, app_assoc. reflexivity.
Qed.

End ReportOutcomes.

(** *** Start-up *)



(** Property X19. When either file is missing nothing is loaded, whatever
    the other file holds: the only start-up message is the error line with
    [Model files not found], and from then on every [/predict] request whose
    fields are present is answered 500 with the models-not-loaded text. *)
Theorem startup_missing_file (d : Disk) (clk : nat -> datetime) (form : Form) :
  model_exists d = false \/ encoder_exists d = false ->
  trace (startup d clk)
  = [Print ([10060%N] ++ lit " Error loading models: "
              ++ lit "Model files not found")] /\
  (all_present form predict_required ->
   predict form (startup d clk)
   = (json_error models_not_loaded 500, startup d clk)).
Proof.
  intros Hmiss.
  assert (H : trace (startup d clk)
              = [Print ([10060%N] ++ lit " Error loading models: "
                          ++ lit "Model files not found")]
              /\ degraded (startup d clk)).
  { unfold degraded, startup, load_models, bind, lift.
    destruct Hmiss as [-> | ->]; [|rewrite orb_true_r]; simpl; auto. }
  destruct H as [Ht Hd]. split; [assumption|].
  intros Hp. apply predict_degraded; assumption.
Qed.

(** *** The properties at sample inputs *)

(** Letters only: no digit, so no number. *)
Lemma sanitize_numeric_input_needs_digit_witness :
  sanitize_numeric_input (lit "abc") (Some 0) (Some 14) (lit "pH")
  = Raise (ValueError (lit "Invalid " ++ lit "pH" ++ lit ": "
             ++ lit "could not convert string to float: "
             ++ repr (re_sub_non_numeric (lit "abc")))).
Proof.
  apply sanitize_numeric_input_needs_digit.
  intros c Hin. vm_compute in Hin.
  destruct Hin as [<-|[<-|[<-|[]]]]; reflexivity.
Defined.

(** The message for a value below the minimum. *)
Lemma sanitize_numeric_input_range_messages_witness :
  sanitize_numeric_input (lit "-1") (Some 0) (Some 200) (lit "Nitrogen")
  = Raise (ValueError (lit "Invalid " ++ lit "Nitrogen" ++ lit ": " ++ lit "Nitrogen"
             ++ lit " must be at least " ++ str_of_Z 0)).
Proof.
  destruct (@sanitize_numeric_input_range_messages
              (lit "-1") 0 200 (lit "Nitrogen") minus_one) as [H _].
  - vm_compute. reflexivity.
  - apply H. vm_compute. reflexivity.
Defined.

(** An accepted value lies within its bounds. *)
Lemma sanitize_numeric_input_result_witness :
  within 0 200 (float_of_decimal false 90 0).
Proof.
  destruct (@sanitize_numeric_input_result
              (lit "90") (Some 0) (Some 200) (lit "Nitrogen")
              (float_of_decimal false 90 0)) as [_ H].
  - vm_compute. reflexivity.
  - apply H; reflexivity.
Defined.

(** A crop name with spaces around it, well under 100 characters. *)
Lemma sanitize_input_fits_witness :
  sanitize_input (PyStr (lit "  rice  ")) 100 = strip (lit "  rice  ").
Proof.
  destruct (@sanitize_input_fits (lit "  rice  ") 100) as [H _].
  - apply Nat.leb_le. vm_compute. reflexivity.
  - exact H.
Defined.

(** The sample form passes the presence check of [/predict]. *)
Lemma validate_required_fields_passes_witness :
  validate_required_fields predict_required predict_view sample_form sample_world
  = predict_view sample_form sample_world.
Proof.
  apply validate_required_fields_passes.
  apply all_present_check. vm_compute. reflexivity.
Defined.

Lemma sample_data_valid :
  Forall2 (fun f x => parsed sample_form f x /\ within (lo f) (hi f) x)
    predict_fields sample_data.
Proof. apply predict_data_ok_iff. vm_compute. reflexivity. Qed.

(** The sample request succeeds. *)
Lemma predict_success_witness :
  status (fst (predict sample_form sample_world)) = 200 /\
  crop_label (fst (predict sample_form sample_world)) = Some (lit "rice").
Proof.
  rewrite (@predict_success sample_form sample_world sample_model sample_encoder
             sample_data 20 (lit "rice")).
  - split; reflexivity.
  - apply all_present_check. vm_compute. reflexivity.
  - reflexivity.
  - reflexivity.
  - exact sample_data_valid.
  - reflexivity.
  - reflexivity.
Defined.

(** A classifier that raises a [ValueError]: the request is answered 400. *)
Lemma predict_inference_errors_witness :
  fst (predict sample_form rejecting_world)
  = json_error (lit "X has 7 features") 400.
Proof.
  destruct (@predict_inference_errors sample_form rejecting_world rejecting_model
              sample_encoder sample_data) as [H _].
  - apply all_present_check. vm_compute. reflexivity.
  - reflexivity.
  - reflexivity.
  - exact sample_data_valid.
  - rewrite (H (lit "X has 7 features") eq_refl). reflexivity.
Defined.

Lemma form_with_extra_agrees k :
  In k report_required ->
  form_lookup form_with_extra k = form_lookup sample_form k.
Proof.
  intros Hin. unfold report_required, predict_required in Hin. simpl in Hin.
  repeat (destruct Hin as [<-|Hin]; [vm_compute; reflexivity|]). elim Hin.
Qed.

(** A field the handler does not know makes no difference. *)
Lemma predict_reads_seven_fields_witness :
  predict form_with_extra sample_world = predict sample_form sample_world.
Proof.
  apply predict_reads_seven_fields.
  intros k Hin. apply form_with_extra_agrees. right. exact Hin.
Defined.

(** Humidity 120 is refused by the report, and nothing else happens. *)
Lemma download_report_validation_error_witness :
  exists msg,
    download_report ascii_upper sample_A4 form_high_humidity sample_world
    = (json_error msg 400, sample_world).
Proof.
  destruct (@download_report_validation_error ascii_upper sample_A4
              form_high_humidity sample_world
              (firstn 4 report_fields) (nth 4 report_fields field_humidity)
              (skipn 5 report_fields)) as (msg & _ & _ & H).
  - reflexivity.
  - apply all_present_check. vm_compute. reflexivity.
  - repeat constructor; apply field_valid_check; eexists; vm_compute; reflexivity.
  - apply invalid_not_valid. right. exists one_hundred_twenty. split.
    + exists (lit "120"). split; vm_compute; reflexivity.
    + intros Hw.
      apply (@within_iff_parsed 0 100 (lit "120") one_hundred_twenty) in Hw;
        [|vm_compute; reflexivity].
      destruct Hw as [_ Hna]. apply Hna. vm_compute. reflexivity.
  - exists msg. exact H.
Defined.

(** The same for the report. *)
Lemma download_report_reads_eight_fields_witness :
  download_report ascii_upper sample_A4 form_with_extra sample_world
  = download_report ascii_upper sample_A4 sample_form sample_world.
Proof.
  apply download_report_reads_eight_fields. exact form_with_extra_agrees.
Defined.

(** With the encoder file missing, [/predict] answers 500. *)
Lemma startup_missing_file_witness :
  predict sample_form (startup disk_without_encoder sample_clock)
  = (json_error models_not_loaded 500, startup disk_without_encoder sample_clock).
Proof.
  destruct (@startup_missing_file disk_without_encoder sample_clock sample_form)
    as [_ H].
  - right. reflexivity.
  - apply H. apply all_present_check. vm_compute. reflexivity.
Defined.
